(** * go-unit-service: the Unit entity and its use-case layer

    A shallow embedding of
      - internal/entities/unit/unit.go (package [unit]: the entity with
        tag-only validation),
      - the entity revision of package [unitEntity] (the same struct, with
        the explicit checks on the optional fields),
      - package [unitUseCase] (UseCase over a batch repository),
      - the service package (Service over a by-id repository).

    The packages the code imports (time, uuid, errors/fmt, validator, mo)
    are modelled only as far as the entity and the use cases call them. *)

From Stdlib Require Import ZArith List String Bool Lia.
Import ListNotations.
Local Open Scope Z_scope.

(** ** github.com/google/uuid *)

Module uuid.

(** [type UUID [16]byte], held as the big-endian number of its bytes:
    byte [i] occupies bits [8*(15-i) .. 8*(15-i)+7]. *)
Definition UUID := Z.

(** [uuid.Nil]: all sixteen bytes zero. *)
Definition Nil : UUID := 0.

(** [==] on the array type. *)
Definition eqb (a b : UUID) : bool := a =? b.

Definition byte (i : Z) (u : UUID) : Z :=
  Z.land (Z.shiftr u (8 * (15 - i))) 255.

Definition setByte (i : Z) (b : Z) (u : UUID) : UUID :=
  Z.lor (Z.land u (Z.lnot (Z.shiftl 255 (8 * (15 - i)))))
        (Z.shiftl (Z.land b 255) (8 * (15 - i))).

(** [uuid.New()] is [Must(NewRandom())]: sixteen bytes [r] from the random
    source, then
      uuid[6] = (uuid[6] & 0x0f) | 0x40   (version 4)
      uuid[8] = (uuid[8] & 0x3f) | 0x80   (variant RFC 4122).
    A failing random source makes [Must] panic; the model takes the read
    as successful. *)
Definition New (r : Z) : UUID :=
  let u := Z.land r (Z.ones 128) in
  let u := setByte 6 (Z.lor (Z.land (byte 6 u) 15) 64) u in
  setByte 8 (Z.lor (Z.land (byte 8 u) 63) 128) u.

End uuid.

(** ** time *)

Module time.

(** [loc *Location]: the nil pointer stands for UTC ([setLoc] stores nil for
    [&utcLoc]); [Local] is the pointer [time.Now] installs. *)
Variant Location := UTC | Local.

(** [time.Time] as the instant it denotes, in nanoseconds since
    January 1, year 1, 00:00:00 UTC, with the monotonic clock reading it
    carries, if any, and its location pointer. A Time that went through
    storage carries no monotonic reading. *)
Record Time := mkTime { ns : Z; mono : option Z; loc : Location }.

(** The zero value [time.Time{}]. *)
Definition zero : Time := {| ns := 0; mono := None; loc := UTC |}.

(** [t.IsZero()]: the instant is January 1, year 1, whatever the location. *)
Definition IsZero (t : Time) : bool := ns t =? 0.

(** [t.After(u)], [t.Equal(u)]: when both times carry a monotonic reading
    the readings alone are compared, else the instants. *)
Definition After (t u : Time) : bool :=
  match mono t, mono u with
  | Some a, Some b => b <? a
  | _, _ => ns u <? ns t
  end.

Definition Equal (t u : Time) : bool :=
  match mono t, mono u with
  | Some a, Some b => a =? b
  | _, _ => ns t =? ns u
  end.

(** Whether the struct is its zero value (what [reflect.Value.IsZero]
    answers): every field zero, so no monotonic reading, and the location
    pointer nil. *)
Definition isZeroValue (t : Time) : bool :=
  (ns t =? 0)
  && match mono t with None => true | Some _ => false end
  && match loc t with UTC => true | Local => false end.

(** Seconds from January 1, year 1 to January 1, 1885, where the wall
    seconds of a Time with a monotonic reading start. *)
Definition wallToInternal : Z := 59453308800.

(** Whether the wall seconds fit the 33 bits a Time with a monotonic
    reading has for them (1885 to 2157). *)
Definition fitsWall (wall : Z) : bool :=
  (0 <=? wall / 1000000000 - wallToInternal)
  && (wall / 1000000000 - wallToInternal <? 2 ^ 33).

(** [time.Now()] for a system clock that reads [wall] and a monotonic
    clock that reads [reading]: the monotonic reading is kept when the
    wall seconds fit, and the location is always [Local]. *)
Definition Now (wall reading : Z) : Time :=
  if fitsWall wall
  then {| ns := wall; mono := Some reading; loc := Local |}
  else {| ns := wall; mono := None; loc := Local |}.

End time.

(** ** errors, fmt.Errorf and validator's error value *)

Module errors.

(** The package-level variables that hold an [errors.New] value. Such a
    value is a pointer, equal only to itself. *)
Variant var :=
| uc_ErrBadParams | uc_ErrUserIDMismatch | uc_ErrUserIDMissing
| svc_ErrUserIDMismatch | svc_ErrUserIDMissing.

Definition var_eqb (a b : var) : bool :=
  match a, b with
  | uc_ErrBadParams, uc_ErrBadParams
  | uc_ErrUserIDMismatch, uc_ErrUserIDMismatch
  | uc_ErrUserIDMissing, uc_ErrUserIDMissing
  | svc_ErrUserIDMismatch, svc_ErrUserIDMismatch
  | svc_ErrUserIDMissing, svc_ErrUserIDMissing => true
  | _, _ => false
  end.

(** One entry of [validator.ValidationErrors]. *)
Record FieldError := { Field : string; Tag : string }.

Inductive error :=
| New (v : var) (text : string)            (* errors.New, kept in variable v *)
| Errorf (format : string) (args : list Z) (* fmt.Errorf without %w *)
| Wrapf (format : string) (err : error)    (* fmt.Errorf with one %w *)
| Join (e1 e2 : error)                     (* errors.Join(e1, e2) *)
| ValidationErrors (fes : list FieldError) (* validator.ValidationErrors *)
| Foreign (n : nat).                       (* any other error value *)

(** [errors.Is(err, target)] for a target held in variable [v]: pointer
    equality, else through [Unwrap() error] and [Unwrap() []error]. *)
Fixpoint Is (err : error) (v : var) : bool :=
  match err with
  | New v' _ => var_eqb v' v
  | Wrapf _ e => Is e v
  | Join e1 e2 => Is e1 v || Is e2 v
  | Errorf _ _ | ValidationErrors _ | Foreign _ => false
  end.

End errors.

(** ** github.com/go-playground/validator/v10, for the tags Unit uses *)

Module validator.

Inductive tag :=
| required
| omitempty
| gt (param : Z)
| gtecsfield (field : string).

(** A field value as the validator sees it by reflection. [vStruct] is a
    struct that is not convertible to [time.Time] and has no exported
    field ([mo.Option]): only whether it is its zero value matters. *)
Inductive value :=
| vArray (u : uuid.UUID)
| vInt (n : Z)
| vTime (t : time.Time)
| vString (s : string)
| vStruct (isZero : bool).

Record field := mkField { name : string; val : value; tags : list tag }.

(** [hasValue]: for these kinds, [field.IsValid() && !field.IsZero()]. *)
Definition hasValue (v : value) : bool :=
  match v with
  | vArray u => negb (uuid.eqb u uuid.Nil)
  | vInt n => negb (n =? 0)
  | vTime t => negb (time.isZeroValue t)
  | vString s => negb (String.eqb s EmptyString)
  | vStruct z => negb z
  end.

Definition isNestedStruct (v : value) : bool :=
  match v with vStruct _ => true | _ => false end.

(** [isGt]: an integer against the parameter, a string by its length. The
    library panics on the other kinds; no tag of Unit reaches them. *)
Definition isGt (v : value) (p : Z) : bool :=
  match v with
  | vInt n => p <? n
  | vString s => p <? Z.of_nat (String.length s)
  | _ => false
  end.

Fixpoint lookup (top : list field) (f : string) : option value :=
  match top with
  | [] => None
  | x :: rest => if String.eqb (name x) f then Some (val x) else lookup rest f
  end.

(** [isGteCrossStructField]: the named field of the top struct must exist
    and have the same kind; times compare with [After || Equal]. *)
Definition isGteCrossStructField (top : list field) (v : value) (f : string) : bool :=
  match v, lookup top f with
  | vInt n, Some (vInt m) => m <=? n
  | vTime t, Some (vTime u) => time.After t u || time.Equal t u
  | _, _ => false
  end.

Definition tagName (t : tag) : string :=
  match t with
  | required => "required"
  | omitempty => "omitempty"
  | gt _ => "gt"
  | gtecsfield _ => "gtecsfield"
  end.

(** The tag loop of [traverseField]: the first failing tag is reported and
    ends the field; [omitempty] ends it silently on a value that is not
    set. When the tags are used up a nested struct is validated field by
    field, and a struct without exported fields yields nothing. *)
Fixpoint runTags (top : list field) (v : value) (ts : list tag) : option tag :=
  match ts with
  | [] => None
  | omitempty :: rest => if hasValue v then runTags top v rest else None
  | required :: rest => if hasValue v then runTags top v rest else Some required
  | gt p :: rest => if isGt v p then runTags top v rest else Some (gt p)
  | gtecsfield f :: rest =>
      if isGteCrossStructField top v f then runTags top v rest
      else Some (gtecsfield f)
  end.

(** Without [WithRequiredStructEnabled] a leading [required] on a nested
    struct is skipped. *)
Definition effectiveTags (requiredStructEnabled : bool) (x : field) : list tag :=
  match tags x with
  | required :: rest =>
      if isNestedStruct (val x) && negb requiredStructEnabled then rest
      else tags x
  | _ => tags x
  end.

(** [traverseField]: at most one [FieldError] per field. *)
Definition traverseField (requiredStructEnabled : bool) (top : list field)
    (x : field) : list errors.FieldError :=
  match runTags top (val x) (effectiveTags requiredStructEnabled x) with
  | None => []
  | Some t => [ {| errors.Field := name x; errors.Tag := tagName t |} ]
  end.

(** [validate.Struct(s)]: nil when no field fails, else the
    [ValidationErrors] of all fields in declaration order. *)
Definition Struct (requiredStructEnabled : bool) (s : list field) : option errors.error :=
  match flat_map (traverseField requiredStructEnabled s) s with
  | [] => None
  | fes => Some (errors.ValidationErrors fes)
  end.

End validator.

(** ** The entity's data *)

(** Go's [int] on a 64-bit platform: arithmetic wraps around. *)
Definition int_min : Z := - 2 ^ 63.
Definition int_max : Z := 2 ^ 63 - 1.
Definition int_wrap (z : Z) : Z := (z + 2 ^ 63) mod 2 ^ 64 - 2 ^ 63.

(** [type Unit struct]; [mo.Option[T]] is [option T]. Both entity revisions
    declare the same fields and differ in the validation tags only. *)
Record Unit := mkUnit {
  ID : uuid.UUID;
  Version : Z;
  CreatedAt : time.Time;
  UpdatedAt : time.Time;
  DeletedAt : option time.Time;
  UserID : option uuid.UUID;
  Name : string
}.

(** [mo.Option.IsPresent]. *)
Definition IsPresent {A} (o : option A) : bool :=
  match o with Some _ => true | None => false end.

(** [o.IsPresent() && p(o.MustGet())]: [MustGet] is reached only on a
    present value. *)
Definition presentAnd {A} (o : option A) (p : A -> bool) : bool :=
  match o with Some a => p a | None => false end.

(** A Go result pair [(T, error)]: the value when the error is nil. *)
Inductive result (A : Type) :=
| ok (a : A)
| fail (err : errors.error).
Arguments ok {A} a.
Arguments fail {A} err.

(** ** The world the code runs in *)

(** A call the use-case layer issues on its repository. *)
Inductive Call :=
| CallGetByIDs (ids : list uuid.UUID)
| CallGetByID (id : uuid.UUID)
| CallGetAll (userID : uuid.UUID) (substring : option string)
| CallGetAllUnits
| CallCreate (unit : Unit)
| CallUpdate (unit : Unit).

Definition isWrite (c : Call) : bool :=
  match c with
  | CallCreate _ | CallUpdate _ => true
  | _ => false
  end.

(** The system clock and the random source are oracles ([sysclock n] is the
    [n]-th reading of the wall clock, in nanoseconds since the zero instant,
    [monoclock n] the monotonic clock's reading at that moment) with a count
    of the reads so far; [store] is the repository's state and [calls] the
    repository calls issued so far, oldest first. *)
Record World (S : Type) := mkWorld {
  sysclock : nat -> Z;
  monoclock : nat -> Z;
  ticks : nat;
  entropy : nat -> Z;
  draws : nat;
  store : S;
  calls : list Call
}.
Arguments mkWorld {S}.
Arguments sysclock {S}.
Arguments monoclock {S}.
Arguments ticks {S}.
Arguments entropy {S}.
Arguments draws {S}.
Arguments store {S}.
Arguments calls {S}.

(** State passing over the world. *)
Definition M (S A : Type) : Type := World S -> A * World S.

Definition ret {S A} (a : A) : M S A := fun w => (a, w).

Definition bind {S A B} (m : M S A) (k : A -> M S B) : M S B :=
  fun w => let (a, w') := m w in k a w'.

Notation "x <- m ;; k" := (bind m (fun x => k))
  (at level 61, m at next level, right associativity).

(** The reading [time.Now()] takes next in world [w]. *)
Definition nextNow {S} (w : World S) : time.Time :=
  time.Now (sysclock w (ticks w)) (monoclock w (ticks w)).

Definition tick {S} (w : World S) : World S :=
  mkWorld (sysclock w) (monoclock w) (Datatypes.S (ticks w)) (entropy w) (draws w)
          (store w) (calls w).

Definition time_Now {S} : M S time.Time := fun w => (nextNow w, tick w).

Definition nextUUID {S} (w : World S) : uuid.UUID :=
  uuid.New (entropy w (draws w)).

Definition draw {S} (w : World S) : World S :=
  mkWorld (sysclock w) (monoclock w) (ticks w) (entropy w) (Datatypes.S (draws w))
          (store w) (calls w).

Definition uuid_New {S} : M S uuid.UUID := fun w => (nextUUID w, draw w).

(** The world once repository call [c] has left the store as [s']. *)
Definition afterCall {S} (w : World S) (c : Call) (s' : S) : World S :=
  mkWorld (sysclock w) (monoclock w) (ticks w) (entropy w) (draws w) s'
          (calls w ++ [c]).

(** A repository call: the method [f] runs on the store, and the call is
    logged. *)
Definition called {S A} (c : Call) (f : S -> A * S) : M S A :=
  fun w => let (a, s') := f (store w) in (a, afterCall w c s').

(** A pointer [*Unit] is nil or holds a Unit. A method with a pointer
    receiver called on a local variable gets its address, and the variable
    holds what the method left there. *)
Definition onVar {S} (method : option Unit -> M S (option Unit)) (unit : Unit) : M S Unit :=
  fun w =>
    match method (Some unit) w with
    | (Some unit', w') => (unit', w')
    | (None, w') => (unit, w')
    end.

Definition setName (unit : Unit) (name : string) : Unit :=
  mkUnit (ID unit) (Version unit) (CreatedAt unit) (UpdatedAt unit)
         (DeletedAt unit) (UserID unit) name.

(** ** internal/entities/unit/unit.go *)

Module unit.

Definition New {S} (userID : option uuid.UUID) (name : string) : M S Unit :=
  now <- time_Now ;;
  id <- uuid_New ;;
  ret {| ID := id; Version := 1; CreatedAt := now; UpdatedAt := now;
         DeletedAt := None; UserID := userID; Name := name |}.

(** The struct as the validator reads it, with the tags of unit.go. *)
Definition fields (u : Unit) : list validator.field :=
  [ validator.mkField "ID" (validator.vArray (ID u)) [validator.required];
    validator.mkField "Version" (validator.vInt (Version u))
      [validator.required; validator.gt 0];
    validator.mkField "CreatedAt" (validator.vTime (CreatedAt u)) [validator.required];
    validator.mkField "UpdatedAt" (validator.vTime (UpdatedAt u))
      [validator.required; validator.gtecsfield "CreatedAt"];
    validator.mkField "DeletedAt" (validator.vStruct (negb (IsPresent (DeletedAt u))))
      [validator.omitempty];
    validator.mkField "UserID" (validator.vStruct (negb (IsPresent (UserID u))))
      [validator.omitempty];
    validator.mkField "Name" (validator.vString (Name u)) [validator.required] ].

(** [validator.New()] then [validate.Struct(u)]. *)
Definition Validate (u : Unit) : option errors.error :=
  validator.Struct false (fields u).

Definition Touch {S} (u : option Unit) : M S (option Unit) :=
  match u with
  | None => ret None
  | Some u =>
      now <- time_Now ;;
      ret (Some (mkUnit (ID u) (int_wrap (Version u + 1)) (CreatedAt u) now
                        (DeletedAt u) (UserID u) (Name u)))
  end.

Definition MarkDeleted {S} (u : option Unit) : M S (option Unit) :=
  match u with
  | None => ret None
  | Some u =>
      now <- time_Now ;;
      ret (Some (mkUnit (ID u) (Version u) (CreatedAt u) now
                        (Some now) (UserID u) (Name u)))
  end.

End unit.

(** ** The entity revision of package unitEntity *)

Module unitEntity.

Definition New {S} (userID : option uuid.UUID) (name : string) : M S Unit :=
  now <- time_Now ;;
  id <- uuid_New ;;
  ret {| ID := id; Version := 1; CreatedAt := now; UpdatedAt := now;
         DeletedAt := None; UserID := userID; Name := name |}.

(** The optional fields carry no tag in this revision. *)
Definition fields (u : Unit) : list validator.field :=
  [ validator.mkField "ID" (validator.vArray (ID u)) [validator.required];
    validator.mkField "Version" (validator.vInt (Version u))
      [validator.required; validator.gt 0];
    validator.mkField "CreatedAt" (validator.vTime (CreatedAt u)) [validator.required];
    validator.mkField "UpdatedAt" (validator.vTime (UpdatedAt u))
      [validator.required; validator.gtecsfield "CreatedAt"];
    validator.mkField "DeletedAt" (validator.vStruct (negb (IsPresent (DeletedAt u)))) [];
    validator.mkField "UserID" (validator.vStruct (negb (IsPresent (UserID u)))) [];
    validator.mkField "Name" (validator.vString (Name u)) [validator.required] ].

Definition Validate (u : Unit) : option errors.error :=
  match validator.Struct true (fields u) with
  | Some err => Some (errors.Wrapf "validate unit: %w" err)
  | None =>
      if presentAnd (DeletedAt u) time.IsZero
      then Some (errors.Errorf "validate unit deleted at: value is zero" [])
      else if presentAnd (UserID u) (fun i => uuid.eqb i uuid.Nil)
      then Some (errors.Errorf "validate unit user id: value is zero" [])
      else None
  end.

Definition Touch {S} (u : option Unit) : M S (option Unit) :=
  match u with
  | None => ret None
  | Some u =>
      now <- time_Now ;;
      ret (Some (mkUnit (ID u) (int_wrap (Version u + 1)) (CreatedAt u) now
                        (DeletedAt u) (UserID u) (Name u)))
  end.

Definition MarkDeleted {S} (u : option Unit) : M S (option Unit) :=
  match u with
  | None => ret None
  | Some u =>
      now <- time_Now ;;
      ret (Some (mkUnit (ID u) (Version u) (CreatedAt u) now
                        (Some now) (UserID u) (Name u)))
  end.

End unitEntity.

(** ** Package unitUseCase *)

Module unitUseCase.

Definition ErrBadParams : errors.error :=
  errors.New errors.uc_ErrBadParams "bad params".
Definition ErrUserIDMismatch : errors.error :=
  errors.New errors.uc_ErrUserIDMismatch "unit user id does not match".
Definition ErrUserIDMissing : errors.error :=
  errors.New errors.uc_ErrUserIDMissing "unit user id is missing".

(** [type Repository interface]: each method acts on the store; the
    context argument is passed through and not modelled. *)
Record Repository (S : Type) := {
  repo_GetByIDs : list uuid.UUID -> S -> result (list Unit) * S;
  repo_GetAll : uuid.UUID -> option string -> S -> result (list Unit) * S;
  repo_Create : Unit -> S -> option errors.error * S;
  repo_Update : Unit -> S -> option errors.error * S
}.
Arguments repo_GetByIDs {S}.
Arguments repo_GetAll {S}.
Arguments repo_Create {S}.
Arguments repo_Update {S}.

Section UseCase.

Variable S : Type.
(** The [Validate] of the entity package the import resolves to. *)
Variable Validate : Unit -> option errors.error.
Variable repo : Repository S.

Definition GetByIDs (ids : list uuid.UUID) : M S (result (list Unit)) :=
  if (List.length ids =? 0)%nat
  then ret (fail (errors.Join ErrBadParams (errors.Errorf "ids must not be empty" [])))
  else
    r <- called (CallGetByIDs ids) (repo_GetByIDs repo ids) ;;
    match r with
    | fail err => ret (fail (errors.Wrapf "get units by ids: %w" err))
    | ok units => ret (ok units)
    end.

Definition GetAll (userID : uuid.UUID) (substring : option string)
  : M S (result (list Unit)) :=
  if presentAnd substring (fun s => String.eqb s "")
  then ret (fail (errors.Join ErrBadParams
                    (errors.Errorf "substring must not be empty when set" [])))
  else
    r <- called (CallGetAll userID substring) (repo_GetAll repo userID substring) ;;
    match r with
    | fail err => ret (fail (errors.Wrapf "get all units: %w" err))
    | ok units => ret (ok units)
    end.

Definition Create (userID : uuid.UUID) (name : string) : M S (result Unit) :=
  unit <- unit.New (Some userID) name ;;
  match Validate unit with
  | Some err =>
      ret (fail (errors.Join ErrBadParams (errors.Wrapf "validate unit create: %w" err)))
  | None =>
      e <- called (CallCreate unit) (repo_Create repo unit) ;;
      match e with
      | Some err => ret (fail (errors.Wrapf "create unit: %w" err))
      | None => ret (ok unit)
      end
  end.

(** [len(units) != 1] and [units[0]] are the one match on the list. *)
Definition Update (id userID : uuid.UUID) (name : string) : M S (result Unit) :=
  r <- called (CallGetByIDs [id]) (repo_GetByIDs repo [id]) ;;
  match r with
  | fail err => ret (fail (errors.Wrapf "get unit by id for update: %w" err))
  | ok units =>
      match units with
      | [unit] =>
          match UserID unit with
          | None => ret (fail ErrUserIDMissing)
          | Some owner =>
              if negb (uuid.eqb owner userID) then ret (fail ErrUserIDMismatch)
              else
                unit <- onVar unit.Touch unit ;;
                let unit := setName unit name in
                match Validate unit with
                | Some err =>
                    ret (fail (errors.Join ErrBadParams
                                 (errors.Wrapf "validate unit update: %w" err)))
                | None =>
                    e <- called (CallUpdate unit) (repo_Update repo unit) ;;
                    match e with
                    | Some err => ret (fail (errors.Wrapf "update unit: %w" err))
                    | None => ret (ok unit)
                    end
                end
          end
      | _ =>
          ret (fail (errors.Errorf "get unit by id for update: expected 1 unit, got %d"
                       [Z.of_nat (List.length units)]))
      end
  end.

Definition Delete (id : uuid.UUID) : M S (result Unit) :=
  r <- called (CallGetByIDs [id]) (repo_GetByIDs repo [id]) ;;
  match r with
  | fail err => ret (fail (errors.Wrapf "get unit by id for delete: %w" err))
  | ok units =>
      match units with
      | [unit] =>
          unit <- onVar unit.MarkDeleted unit ;;
          e <- called (CallUpdate unit) (repo_Update repo unit) ;;
          match e with
          | Some err => ret (fail (errors.Wrapf "update unit for delete: %w" err))
          | None => ret (ok unit)
          end
      | _ =>
          ret (fail (errors.Errorf "get unit by id for delete: expected 1 unit, got %d"
                       [Z.of_nat (List.length units)]))
      end
  end.

End UseCase.

Arguments GetByIDs {S}.
Arguments GetAll {S}.
Arguments Create {S}.
Arguments Update {S}.
Arguments Delete {S}.

End unitUseCase.

(** ** The service package (Service over a by-id repository) *)

Module unitService.

Definition ErrUserIDMismatch : errors.error :=
  errors.New errors.svc_ErrUserIDMismatch "unit user id does not match".
Definition ErrUserIDMissing : errors.error :=
  errors.New errors.svc_ErrUserIDMissing "unit user id is missing".

Record Repository (S : Type) := {
  repo_GetByID : uuid.UUID -> S -> result Unit * S;
  repo_GetAll : S -> result (list Unit) * S;
  repo_Create : Unit -> S -> option errors.error * S;
  repo_Update : Unit -> S -> option errors.error * S
}.
Arguments repo_GetByID {S}.
Arguments repo_GetAll {S}.
Arguments repo_Create {S}.
Arguments repo_Update {S}.

(** [strings.Contains(s, substr)]. *)
Fixpoint Contains (s substr : string) : bool :=
  if String.prefix substr s then true
  else match s with
       | EmptyString => false
       | String _ s' => Contains s' substr
       end.

Section Service.

Variable S : Type.
Variable Validate : Unit -> option errors.error.
Variable repo : Repository S.

Definition GetByID (id : uuid.UUID) : M S (result Unit) :=
  called (CallGetByID id) (repo_GetByID repo id).

Definition GetAll : M S (result (list Unit)) :=
  called CallGetAllUnits (repo_GetAll repo).

Definition GetAllFiltered (substring : string) : M S (result (list Unit)) :=
  r <- called CallGetAllUnits (repo_GetAll repo) ;;
  match r with
  | fail err => ret (fail err)
  | ok units =>
      if String.eqb substring ""
      then ret (ok units)
      else ret (ok (filter (fun unit => Contains (Name unit) substring) units))
  end.

Definition Create (userID : option uuid.UUID) (name : string) : M S (result Unit) :=
  unit <- unit.New userID name ;;
  match Validate unit with
  | Some err => ret (fail err)
  | None =>
      e <- called (CallCreate unit) (repo_Create repo unit) ;;
      match e with
      | Some err => ret (fail err)
      | None => ret (ok unit)
      end
  end.

Definition Update (id userID : uuid.UUID) (name : string) : M S (result Unit) :=
  r <- called (CallGetByID id) (repo_GetByID repo id) ;;
  match r with
  | fail err => ret (fail err)
  | ok unit =>
      match UserID unit with
      | None => ret (fail ErrUserIDMissing)
      | Some owner =>
          if negb (uuid.eqb owner userID) then ret (fail ErrUserIDMismatch)
          else
            unit <- onVar unit.Touch unit ;;
            let unit := setName unit name in
            match Validate unit with
            | Some err => ret (fail (errors.Wrapf "validate unit update: %w" err))
            | None =>
                e <- called (CallUpdate unit) (repo_Update repo unit) ;;
                match e with
                | Some err => ret (fail err)
                | None => ret (ok unit)
                end
            end
      end
  end.

Definition Delete (id : uuid.UUID) : M S (result Unit) :=
  r <- called (CallGetByID id) (repo_GetByID repo id) ;;
  match r with
  | fail err => ret (fail err)
  | ok unit =>
      unit <- onVar unit.MarkDeleted unit ;;
      e <- called (CallUpdate unit) (repo_Update repo unit) ;;
      match e with
      | Some err => ret (fail err)
      | None => ret (ok unit)
      end
  end.

End Service.

Arguments GetByID {S}.
Arguments GetAll {S}.
Arguments GetAllFiltered {S}.
Arguments Create {S}.
Arguments Update {S}.
Arguments Delete {S}.

End unitService.

(** ** The data-model invariants, as the specification words them *)

(** 1. id, createdAt, updatedAt and name are present / non-empty. *)
Definition invariant1 (u : Unit) : bool :=
  negb (uuid.eqb (ID u) uuid.Nil)
  && negb (time.isZeroValue (CreatedAt u))
  && negb (time.isZeroValue (UpdatedAt u))
  && negb (String.eqb (Name u) "").

(** 2. version >= 1. *)
Definition invariant2 (u : Unit) : bool := 1 <=? Version u.

(** 3. updatedAt >= createdAt. *)
Definition invariant3 (u : Unit) : bool :=
  time.ns (CreatedAt u) <=? time.ns (UpdatedAt u).

(** 4. If deletedAt is present, it is not the zero timestamp. *)
Definition invariant4 (u : Unit) : bool :=
  match DeletedAt u with
  | Some t => negb (time.IsZero t)
  | None => true
  end.

(** 5. If userID is present, it is not the nil identifier. *)
Definition invariant5 (u : Unit) : bool :=
  match UserID u with
  | Some i => negb (uuid.eqb i uuid.Nil)
  | None => true
  end.

Definition invariants (u : Unit) : bool :=
  invariant1 u && invariant2 u && invariant3 u && invariant4 u && invariant5 u.

(** ** Vocabulary of the statements *)

(** [t] is not before [u] as Go compares two times: by their monotonic
    readings when both carry one, else by their instants. *)
Definition notBefore (t u : time.Time) : Prop :=
  match time.mono t, time.mono u with
  | Some a, Some b => b <= a
  | _, _ => time.ns u <= time.ns t
  end.

(** [t] is before [u] as Go compares two times. *)
Definition before (t u : time.Time) : Prop :=
  match time.mono t, time.mono u with
  | Some a, Some b => a < b
  | _, _ => time.ns t < time.ns u
  end.

(** What [gtecsfield=CreatedAt] checks on UpdatedAt. *)
Definition gtecsfieldHolds (u : Unit) : bool :=
  time.After (UpdatedAt u) (CreatedAt u) || time.Equal (UpdatedAt u) (CreatedAt u).

(** What the tags of either revision check: the optional fields never
    fail a tag. *)
Definition tagsHold (u : Unit) : bool :=
  invariant1 u && invariant2 u && gtecsfieldHolds u.

(** What the Validate of unitEntity checks: the tags, then the two
    optional fields. *)
Definition checksHold (u : Unit) : bool :=
  tagsHold u && invariant4 u && invariant5 u.

(** What Touch and MarkDeleted leave in the Unit when the clock read [now]. *)
Definition touchedAt (u : Unit) (now : time.Time) : Unit :=
  mkUnit (ID u) (int_wrap (Version u + 1)) (CreatedAt u) now
         (DeletedAt u) (UserID u) (Name u).

Definition deletedAt (u : Unit) (now : time.Time) : Unit :=
  mkUnit (ID u) (Version u) (CreatedAt u) now (Some now) (UserID u) (Name u).

(** The ownership rule of Update on the fetched Unit [u], in the world [w1]
    the fetch left: a missing owner and a foreign owner end the run with
    the given error and nothing more done; the owner itself lets it
    proceed. *)
Definition ownershipRule {S} (w1 : World S) (u : Unit) (userID : uuid.UUID)
    (missing mismatch : errors.error) (outcome : result Unit * World S)
    (proceeds : Prop) : Prop :=
  (UserID u = None -> outcome = (fail missing, w1)) /\
  (forall owner, UserID u = Some owner -> owner <> userID ->
     outcome = (fail mismatch, w1)) /\
  (UserID u = Some userID -> proceeds).

(** Update proceeding on [u]: the Unit is touched and renamed; if it does
    not validate the run ends with [onInvalid] of the violation and no
    write; else the one write is issued, and the Unit is returned unless
    the write fails. *)
Definition savesTouched {S} (w1 : World S) (u : Unit) (name : string)
    (Validate : Unit -> option errors.error)
    (update : Unit -> S -> option errors.error * S)
    (onInvalid onWriteError : errors.error -> errors.error)
    (outcome : result Unit * World S) : Prop :=
  exists u1,
    unit.Touch (Some u) w1 = (Some u1, tick w1) /\
    match Validate (setName u1 name) with
    | Some violation => outcome = (fail (onInvalid violation), tick w1)
    | None =>
        forall e s2, update (setName u1 name) (store w1) = (e, s2) ->
          outcome = (match e with
                     | None => ok (setName u1 name)
                     | Some err => fail (onWriteError err)
                     end,
                     afterCall (tick w1) (CallUpdate (setName u1 name)) s2)
    end.

(** A Unit is deleted when its deletedAt is present. *)
Definition isDeleted (u : Unit) : bool := IsPresent (DeletedAt u).

(** The Unit a repository write carries. *)
Definition written (c : Call) : option Unit :=
  match c with
  | CallCreate u | CallUpdate u => Some u
  | _ => None
  end.

(** A run from world [w] keeps to deleted Units: the Unit it returns, if
    any, is deleted, and so is every Unit it hands to a repository write. *)
Definition keepsDeleted {S} (w : World S) (outcome : result Unit * World S) : Prop :=
  (forall v, fst outcome = ok v -> isDeleted v = true) /\
  exists cs, calls (snd outcome) = calls w ++ cs /\
             forall c v, In c cs -> written c = Some v -> isDeleted v = true.

(** The Unit [u] with its two optional fields replaced. *)
Definition withOptional (u : Unit) (d : option time.Time) (o : option uuid.UUID) : Unit :=
  mkUnit (ID u) (Version u) (CreatedAt u) (UpdatedAt u) d o (Name u).

(** The repository calls of one operation: nothing, one call, or a read
    followed by a write. *)
Definition readThenWrite (cs : list Call) : bool :=
  match cs with
  | [] => true
  | [_] => true
  | [r; c] => negb (isWrite r) && isWrite c
  | _ => false
  end.

(** An operation that went from world [w] to world [w'] issued the calls
    [cs] and left the clock and random oracles as they were. *)
Definition issued {S} (w w' : World S) (cs : list Call) : Prop :=
  calls w' = calls w ++ cs /\ sysclock w' = sysclock w /\
  monoclock w' = monoclock w /\ entropy w' = entropy w.

(** World [w'] is reached from [w] by at most a read followed by a write. *)
Definition oneWriteAtMost {S} (w w' : World S) : Prop :=
  exists cs, issued w w' cs /\ readThenWrite cs = true.

(** A stored Unit with no owner and an empty name. *)
Definition orphan : Unit :=
  mkUnit 9 1 (time.mkTime 63839664000000000000 None time.Local)
         (time.mkTime 63839664000000000000 None time.Local) None None "".

(** ** Concrete worlds for the examples *)

(** A clock that reads January 1, 2024 and advances a nanosecond a read. *)
Definition clock2024 : nat -> Z := fun n => 63839664000000000000 + Z.of_nat n.

Definition memWorld (s : list Unit) : World (list Unit) :=
  mkWorld clock2024 (fun n => Z.of_nat n) 0 (fun n => Z.of_nat n) 0 s [].

(** January 1 of 2024 and of 2030, as read back from storage. *)
Definition t2024 : time.Time := time.mkTime 63839664000000000000 None time.Local.
Definition t2030 : time.Time := time.mkTime 64029052800000000000 None time.Local.

(** A well-formed Unit owned by the nil identifier. *)
Definition nilOwned : Unit :=
  mkUnit 7 1 t2024 t2024 None (Some uuid.Nil) "alpha".

(** A well-formed Unit deleted at the zero timestamp. *)
Definition zeroDeleted : Unit :=
  mkUnit 7 1 t2024 t2024 (Some time.zero) None "alpha".

(** A Unit last updated in 2024, at its second version. *)
Definition beta2024 : Unit := mkUnit 7 2 t2024 t2024 None (Some 5) "beta".

(** A Unit whose stored updatedAt (2030) is ahead of the clock (2024). *)
Definition ahead2030 : Unit := mkUnit 7 2 t2024 t2030 None (Some 5) "beta".

(** A stored Unit created in 2030, ahead of the clock (2024). *)
Definition created2030 : Unit := mkUnit 7 2 t2030 t2030 None (Some 5) "beta".

(** A Unit at the largest version an int holds. *)
Definition lastVersion : Unit := mkUnit 7 int_max t2024 t2024 None (Some 5) "beta".

(** A Unit deleted in 2024. *)
Definition gone2024 : Unit := mkUnit 7 2 t2024 t2024 (Some t2024) (Some 5) "beta".

(** ** In-memory repositories for the examples *)

Definition replaceByID (u : Unit) (s : list Unit) : list Unit :=
  map (fun v => if uuid.eqb (ID v) (ID u) then u else v) s.

Definition memRepo : unitUseCase.Repository (list Unit) :=
  {| unitUseCase.repo_GetByIDs ids s :=
       (ok (filter (fun u => existsb (uuid.eqb (ID u)) ids) s), s);
     unitUseCase.repo_GetAll userID substring s :=
       (ok (filter (fun u => match UserID u with
                             | Some i => uuid.eqb i userID
                             | None => false
                             end) s), s);
     unitUseCase.repo_Create u s := (None, s ++ [u]);
     unitUseCase.repo_Update u s := (None, replaceByID u s) |}.

Definition memService : unitService.Repository (list Unit) :=
  {| unitService.repo_GetByID id s :=
       match find (fun u => uuid.eqb (ID u) id) s with
       | Some u => (ok u, s)
       | None => (fail (errors.Foreign 0), s)
       end;
     unitService.repo_GetAll s := (ok s, s);
     unitService.repo_Create u s := (None, s ++ [u]);
     unitService.repo_Update u s := (None, replaceByID u s) |}.

(** A repository whose reads fail with a foreign error. *)
Definition downRepo : unitUseCase.Repository (list Unit) :=
  {| unitUseCase.repo_GetByIDs ids s := (fail (errors.Foreign 1), s);
     unitUseCase.repo_GetAll userID substring s := (fail (errors.Foreign 1), s);
     unitUseCase.repo_Create u s := (Some (errors.Foreign 2), s);
     unitUseCase.repo_Update u s := (Some (errors.Foreign 2), s) |}.

(** A repository that reads the store and refuses every write. *)
Definition readOnlyRepo : unitUseCase.Repository (list Unit) :=
  {| unitUseCase.repo_GetByIDs ids s :=
       (ok (filter (fun u => existsb (uuid.eqb (ID u)) ids) s), s);
     unitUseCase.repo_GetAll userID substring s := (ok s, s);
     unitUseCase.repo_Create u s := (Some (errors.Foreign 2), s);
     unitUseCase.repo_Update u s := (Some (errors.Foreign 2), s) |}.

(** * Facts *)

(** ** The imported packages *)

Lemma uuid_New_bit63 (r : Z) : Z.testbit (uuid.New r) 63 = true.
Proof.
  unfold uuid.New, uuid.setByte.
  rewrite Z.lor_spec.
  apply orb_true_iff; right.
  change (8 * (15 - 8)) with 56.
  rewrite Z.shiftl_spec by lia.
  change (63 - 56) with 7.
  rewrite Z.land_spec, Z.lor_spec.
  change (Z.testbit 128 7) with true.
  change (Z.testbit 255 7) with true.
  now rewrite orb_true_r.
Qed.

(** A version-4 identifier is never the nil identifier. *)
Lemma uuid_New_not_Nil (r : Z) : uuid.eqb (uuid.New r) uuid.Nil = false.
Proof.
  unfold uuid.eqb, uuid.Nil.
  apply Z.eqb_neq; intro H.
  pose proof (uuid_New_bit63 r) as B.
  rewrite H in B; discriminate B.
Qed.

(** [time.Now()] is never the zero value of its type. *)
Lemma time_Now_hasValue (wall reading : Z) :
  time.isZeroValue (time.Now wall reading) = false.
Proof.
  unfold time.isZeroValue, time.Now.
  destruct (time.fitsWall wall); simpl; apply andb_false_r.
Qed.

(** [time.Now()] denotes the instant the wall clock read. *)
Lemma time_Now_ns (wall reading : Z) : time.ns (time.Now wall reading) = wall.
Proof. unfold time.Now. destruct (time.fitsWall wall); reflexivity. Qed.

(** A Time is never before itself. *)
Lemma gte_refl (t : time.Time) : time.After t t || time.Equal t t = true.
Proof.
  unfold time.After, time.Equal.
  destruct (time.mono t); rewrite Z.ltb_irrefl, Z.eqb_refl; reflexivity.
Qed.

Lemma gte_spec (t u : time.Time) :
  time.After t u || time.Equal t u = true <-> notBefore t u.
Proof.
  unfold time.After, time.Equal, notBefore.
  destruct (time.mono t) as [a|], (time.mono u) as [b|];
    rewrite orb_true_iff, Z.ltb_lt, Z.eqb_eq; lia.
Qed.

Lemma gte_false (t u : time.Time) :
  time.After t u || time.Equal t u = false <-> before t u.
Proof.
  unfold time.After, time.Equal, before.
  destruct (time.mono t) as [a|], (time.mono u) as [b|];
    rewrite orb_false_iff, Z.ltb_ge, Z.eqb_neq; lia.
Qed.

(** Unless both carry a monotonic reading, two times compare by instant. *)
Lemma gte_by_instant (t u : time.Time) :
  time.mono t = None \/ time.mono u = None ->
  time.After t u || time.Equal t u = (time.ns u <=? time.ns t).
Proof.
  unfold time.After, time.Equal.
  intros [H|H]; rewrite H; destruct (time.mono t), (time.mono u);
    destruct (Z.ltb_spec (time.ns u) (time.ns t)),
             (Z.eqb_spec (time.ns t) (time.ns u)),
             (Z.leb_spec (time.ns u) (time.ns t)); simpl; lia.
Qed.

Lemma int_wrap_id (z : Z) : int_min <= z <= int_max -> int_wrap z = z.
Proof.
  unfold int_min, int_max, int_wrap; intros H.
  rewrite Z.mod_small; lia.
Qed.

(** ** Validation *)

Lemma flat_map_nil {A B} (f : A -> list B) (l : list A) :
  flat_map f l = [] <-> forallb (fun x => match f x with [] => true | _ => false end) l = true.
Proof.
  induction l as [|a l IH]; simpl.
  - tauto.
  - destruct (f a); simpl.
    + exact IH.
    + split; discriminate.
Qed.

(** [Struct] answers nil exactly when every field gets through its tags. *)
Lemma Struct_None (b : bool) (s : list validator.field) :
  validator.Struct b s = None <->
  forallb (fun x => match validator.traverseField b s x with
                    | [] => true | _ => false end) s = true.
Proof.
  unfold validator.Struct.
  rewrite <- flat_map_nil.
  destruct (flat_map _ s); split; congruence.
Qed.

Lemma version_tags (v : Z) : negb (v =? 0) && (0 <? v) = (1 <=? v).
Proof.
  destruct (Z.eqb_spec v 0), (Z.ltb_spec 0 v), (Z.leb_spec 1 v); simpl; lia.
Qed.

Lemma unit_fields_pass (u : Unit) :
  forallb (fun x => match validator.traverseField false (unit.fields u) x with
                    | [] => true | _ => false end) (unit.fields u)
  = tagsHold u.
Proof.
  destruct u as [id v c up d o n].
  unfold tagsHold, invariant1, invariant2, gtecsfieldHolds.
  unfold validator.traverseField, validator.effectiveTags, unit.fields,
    validator.isGteCrossStructField.
  cbn -[Z.eqb Z.ltb Z.leb time.isZeroValue time.After time.Equal uuid.eqb].
  rewrite <- version_tags.
  destruct (uuid.eqb id uuid.Nil), (v =? 0), (0 <? v), (time.isZeroValue c),
    (time.isZeroValue up), (time.After up c || time.Equal up c), n, d, o;
    reflexivity.
Qed.

Lemma unitEntity_fields_pass (u : Unit) :
  forallb (fun x => match validator.traverseField true (unitEntity.fields u) x with
                    | [] => true | _ => false end) (unitEntity.fields u)
  = tagsHold u.
Proof.
  destruct u as [id v c up d o n].
  unfold tagsHold, invariant1, invariant2, gtecsfieldHolds.
  unfold validator.traverseField, validator.effectiveTags, unitEntity.fields,
    validator.isGteCrossStructField.
  cbn -[Z.eqb Z.ltb Z.leb time.isZeroValue time.After time.Equal uuid.eqb].
  rewrite <- version_tags.
  destruct (uuid.eqb id uuid.Nil), (v =? 0), (0 <? v), (time.isZeroValue c),
    (time.isZeroValue up), (time.After up c || time.Equal up c), n;
    reflexivity.
Qed.

(** unit.go: Validate answers nil exactly when the tags hold (invariants 1
    and 2, and updatedAt not before createdAt as Go compares them); the
    optional fields play no part. *)
Lemma unit_Validate_tags (u : Unit) :
  unit.Validate u = None <-> tagsHold u = true.
Proof.
  unfold unit.Validate.
  rewrite Struct_None, unit_fields_pass.
  tauto.
Qed.

(** unitEntity: Validate answers nil exactly when the tags and the two
    checks on the optional fields hold. *)
Lemma unitEntity_Validate_checks (u : Unit) :
  unitEntity.Validate u = None <-> checksHold u = true.
Proof.
  unfold unitEntity.Validate, checksHold.
  pose proof (Struct_None true (unitEntity.fields u)) as HS.
  rewrite unitEntity_fields_pass in HS.
  destruct (validator.Struct true (unitEntity.fields u)) as [err|].
  - destruct (tagsHold u).
    + destruct HS as [_ HS]. discriminate (HS eq_refl).
    + split; discriminate.
  - destruct HS as [HS _]. rewrite (HS eq_refl).
    unfold invariant4, invariant5, presentAnd.
    destruct (DeletedAt u) as [t|], (UserID u) as [i|]; simpl;
      try destruct (time.IsZero t); try destruct (uuid.eqb i uuid.Nil);
      simpl; split; congruence.
Qed.

(** Unless createdAt and updatedAt both carry a monotonic reading, what
    unitEntity's Validate checks is the five invariants. *)
Lemma checksHold_invariants (u : Unit) :
  time.mono (UpdatedAt u) = None \/ time.mono (CreatedAt u) = None ->
  checksHold u = invariants u.
Proof.
  intros H. unfold checksHold, tagsHold, invariants, gtecsfieldHolds, invariant3.
  rewrite (gte_by_instant _ _ H). reflexivity.
Qed.

(** ** The entity *)

(** C1, at the failing inputs: the Validate of unit.go answers nil for a
    Unit whose userID is present and the nil identifier, and for a Unit
    whose deletedAt is present and the zero timestamp, although invariants
    5 and 4 fail on them; the Validate of unitEntity rejects both. *)
Theorem unit_Validate_skips_optional_fields :
  unit.Validate nilOwned = None /\ invariant5 nilOwned = false /\
  unit.Validate zeroDeleted = None /\ invariant4 zeroDeleted = false /\
  unitEntity.Validate nilOwned
    = Some (errors.Errorf "validate unit user id: value is zero" []) /\
  unitEntity.Validate zeroDeleted
    = Some (errors.Errorf "validate unit deleted at: value is zero" []).
Proof. repeat split; reflexivity. Qed.

Lemma New_eq {S} (userID : option uuid.UUID) (name : string) (w : World S) :
  unit.New userID name w
  = (mkUnit (nextUUID w) 1 (nextNow w) (nextNow w) None userID name, draw (tick w)).
Proof. reflexivity. Qed.

Lemma unitEntity_New_eq {S} (userID : option uuid.UUID) (name : string) (w : World S) :
  unitEntity.New userID name w = unit.New userID name w.
Proof. reflexivity. Qed.

Lemma New_tagsHold {S} (userID : option uuid.UUID) (name : string) (w : World S) :
  name <> ""%string -> tagsHold (fst (unit.New userID name w)) = true.
Proof.
  intros Hname. rewrite New_eq; simpl.
  unfold tagsHold, invariant1, invariant2, gtecsfieldHolds; simpl.
  unfold nextUUID, nextNow.
  rewrite uuid_New_not_Nil, time_Now_hasValue.
  destruct (String.eqb_spec name ""); [contradiction | simpl].
  apply gte_refl.
Qed.

(** C3, amended: for every owner and every name the constructor gives
    version 1 and createdAt equal to updatedAt; when the name is non-empty
    and the owner is absent or not the nil identifier, Validate (of either
    entity revision) succeeds on the fresh Unit. *)
Theorem New_version_times_valid :
  forall (S : Type) (w : World S) (userID : option uuid.UUID) (name : string),
    fst (unitEntity.New userID name w) = fst (unit.New userID name w) /\
    Version (fst (unit.New userID name w)) = 1 /\
    CreatedAt (fst (unit.New userID name w)) = UpdatedAt (fst (unit.New userID name w)) /\
    (name <> ""%string -> userID <> Some uuid.Nil ->
       unitEntity.Validate (fst (unit.New userID name w)) = None /\
       unit.Validate (fst (unit.New userID name w)) = None).
Proof.
  intros S w userID name.
  split; [reflexivity|]. split; [reflexivity|]. split; [reflexivity|].
  intros Hname Howner.
  pose proof (New_tagsHold userID name w Hname) as HT.
  split.
  - apply unitEntity_Validate_checks.
    unfold checksHold.
    rewrite HT, New_eq; simpl.
    unfold invariant5; simpl.
    destruct userID as [i|]; [|reflexivity].
    unfold uuid.eqb. destruct (Z.eqb_spec i uuid.Nil); [|reflexivity].
    subst i. contradiction Howner. reflexivity.
  - apply unit_Validate_tags, HT.
Qed.

Lemma New_version_times_valid_witness :
  Version (fst (unit.New (Some 5) "alpha" (memWorld []))) = 1 /\
  unitEntity.Validate (fst (unit.New (Some 5) "alpha" (memWorld []))) = None /\
  unit.Validate (fst (unit.New None "alpha" (memWorld []))) = None.
Proof.
  split; [|split].
  - apply (New_version_times_valid _ (memWorld []) (Some 5) "alpha").
  - apply (New_version_times_valid _ (memWorld []) (Some 5) "alpha");
      discriminate.
  - apply (New_version_times_valid _ (memWorld []) None "alpha");
      discriminate.
Defined.

(** C3 as stated fails in unitEntity: a fresh Unit with a non-empty name
    whose owner is the nil identifier does not validate. *)
Lemma New_nil_owner_rejected :
  unitEntity.Validate (fst (unitEntity.New (Some uuid.Nil) "alpha" (memWorld [])))
  = Some (errors.Errorf "validate unit user id: value is zero" []).
Proof. reflexivity. Qed.

Lemma Touch_eq {S} (u : Unit) (w : World S) :
  unit.Touch (Some u) w
  = (Some (mkUnit (ID u) (int_wrap (Version u + 1)) (CreatedAt u) (nextNow w)
                  (DeletedAt u) (UserID u) (Name u)), tick w).
Proof. reflexivity. Qed.

Lemma MarkDeleted_eq {S} (u : Unit) (w : World S) :
  unit.MarkDeleted (Some u) w
  = (Some (mkUnit (ID u) (Version u) (CreatedAt u) (nextNow w)
                  (Some (nextNow w)) (UserID u) (Name u)), tick w).
Proof. reflexivity. Qed.

Lemma unitEntity_Touch_eq {S} (p : option Unit) (w : World S) :
  unitEntity.Touch p w = unit.Touch p w.
Proof. reflexivity. Qed.

Lemma unitEntity_MarkDeleted_eq {S} (p : option Unit) (w : World S) :
  unitEntity.MarkDeleted p w = unit.MarkDeleted p w.
Proof. reflexivity. Qed.

(** C4, amended: Touch on a nil reference does nothing. On a Unit it reads
    the clock once and sets updatedAt to that reading, which is at or after
    the previous updatedAt whenever the clock does not read earlier than
    it; version becomes version + 1 unless it was the largest int, where
    it wraps; no other field changes. *)
Theorem Touch_version_and_time :
  forall (S : Type) (w : World S) (u : Unit),
    unit.Touch None w = (None, w) /\
    exists u',
      unit.Touch (Some u) w = (Some u', tick w) /\
      UpdatedAt u' = nextNow w /\
      (time.ns (UpdatedAt u) <= sysclock w (ticks w) ->
         time.ns (UpdatedAt u) <= time.ns (UpdatedAt u')) /\
      Version u' = int_wrap (Version u + 1) /\
      (int_min <= Version u < int_max -> Version u' = Version u + 1) /\
      ID u' = ID u /\ CreatedAt u' = CreatedAt u /\ DeletedAt u' = DeletedAt u /\
      UserID u' = UserID u /\ Name u' = Name u.
Proof.
  intros S w u. split; [reflexivity|].
  eexists. split; [apply Touch_eq|]. simpl.
  repeat split; try reflexivity.
  - intros H. unfold nextNow. rewrite time_Now_ns. exact H.
  - intros H. apply int_wrap_id. unfold int_min, int_max in *. lia.
Qed.

Lemma Touch_version_and_time_witness :
  exists u',
    fst (unit.Touch (Some beta2024) (memWorld [])) = Some u' /\
    time.ns (UpdatedAt beta2024) <= time.ns (UpdatedAt u') /\
    Version u' = 3.
Proof.
  destruct (Touch_version_and_time _ (memWorld []) beta2024)
    as [_ [u' [E [_ [Hle [_ [Hv _]]]]]]].
  exists u'. split; [rewrite E; reflexivity|]. split.
  - apply Hle. vm_compute. discriminate.
  - apply Hv. vm_compute. split; [discriminate | reflexivity].
Defined.

(** C4 as stated fails: with the clock behind the stored updatedAt, Touch
    moves updatedAt back; at the largest int, version wraps around. *)
Lemma Touch_moves_time_back :
  exists u',
    fst (unit.Touch (Some ahead2030) (memWorld [])) = Some u' /\
    time.ns (UpdatedAt u') < time.ns (UpdatedAt ahead2030) /\
    exists v',
      fst (unit.Touch (Some lastVersion) (memWorld [])) = Some v' /\
      Version lastVersion = int_max /\ Version v' = int_min.
Proof.
  eexists. split; [reflexivity|]. split; [reflexivity|].
  eexists. repeat split; reflexivity.
Qed.

(** C5: when the clock does not read the zero instant, MarkDeleted leaves
    deletedAt present, non-zero and equal to the new updatedAt, and the
    version as it was; Delete on a stored Unit whose write succeeds returns
    that Unit: deletedAt set, version as fetched. *)
Theorem MarkDeleted_sets_deletedAt :
  forall (S : Type) (repo : unitUseCase.Repository S) (w : World S)
         (id : uuid.UUID) (u : Unit),
    time.IsZero (nextNow w) = false ->
    exists u',
      unit.MarkDeleted (Some u) w = (Some u', tick w) /\
      DeletedAt u' = Some (UpdatedAt u') /\
      time.IsZero (UpdatedAt u') = false /\
      Version u' = Version u /\
      forall s1 : S,
        unitUseCase.repo_GetByIDs repo [id] (store w) = (ok [u], s1) ->
        fst (unitUseCase.repo_Update repo u' s1) = None ->
        fst (unitUseCase.Delete repo id w) = ok u'.
Proof.
  intros S repo w id u Hclock.
  eexists. split; [apply MarkDeleted_eq|]. simpl.
  split; [reflexivity|]. split; [exact Hclock|]. split; [reflexivity|].
  intros s1 Hfetch Hwrite.
  unfold unitUseCase.Delete, bind, called, onVar, ret.
  rewrite Hfetch.
  rewrite MarkDeleted_eq.
  change (nextNow (afterCall w (CallGetByIDs [id]) s1)) with (nextNow w).
  change (store (tick (afterCall w (CallGetByIDs [id]) s1))) with s1.
  destruct (unitUseCase.repo_Update repo _ s1) as [e s2].
  simpl in Hwrite. subst e. reflexivity.
Qed.

Lemma MarkDeleted_sets_deletedAt_witness :
  exists u',
    fst (unitUseCase.Delete memRepo 7 (memWorld [beta2024])) = ok u' /\
    DeletedAt u' = Some (UpdatedAt u') /\
    time.IsZero (UpdatedAt u') = false /\
    Version u' = 2.
Proof.
  destruct (MarkDeleted_sets_deletedAt _ memRepo (memWorld [beta2024]) 7 beta2024 eq_refl)
    as [u' [E [Hd [Hz [Hv Hdel]]]]].
  exists u'. split; [|split; [exact Hd | split; [exact Hz | exact Hv]]].
  apply (Hdel [beta2024]); reflexivity.
Defined.

(** ** The use-case layer *)

Ltac run :=
  unfold unitUseCase.GetByIDs, unitUseCase.GetAll, unitUseCase.Create,
    unitUseCase.Update, unitUseCase.Delete,
    unitService.GetAll, unitService.GetAllFiltered, unitService.Create,
    unitService.Update, unitService.Delete,
    bind, called, ret.

Lemma uuid_eqb_refl (i : uuid.UUID) : uuid.eqb i i = true.
Proof. apply Z.eqb_refl. Qed.

Lemma uuid_eqb_neq (i j : uuid.UUID) : i <> j -> uuid.eqb i j = false.
Proof. intros H. apply Z.eqb_neq, H. Qed.

Lemma onVar_Touch {S} (u : Unit) (w : World S) :
  onVar unit.Touch u w = (touchedAt u (nextNow w), tick w).
Proof. reflexivity. Qed.

Lemma onVar_MarkDeleted {S} (u : Unit) (w : World S) :
  onVar unit.MarkDeleted u w = (deletedAt u (nextNow w), tick w).
Proof. reflexivity. Qed.

Section Runs.

Variable S : Type.
Variable Validate : Unit -> option errors.error.
Variable repo : unitUseCase.Repository S.
Variable svc : unitService.Repository S.

(** UseCase.Update once its fetch has returned the one Unit [u]. *)
Lemma UseCase_Update_fetched (w : World S) (id userID : uuid.UUID) (name : string)
    (u : Unit) (s1 : S) :
  unitUseCase.repo_GetByIDs repo [id] (store w) = (ok [u], s1) ->
  unitUseCase.Update Validate repo id userID name w =
  let w1 := afterCall w (CallGetByIDs [id]) s1 in
  let u2 := setName (touchedAt u (nextNow w1)) name in
  match UserID u with
  | None => (fail unitUseCase.ErrUserIDMissing, w1)
  | Some owner =>
      if uuid.eqb owner userID then
        match Validate u2 with
        | Some violation =>
            (fail (errors.Join unitUseCase.ErrBadParams
                     (errors.Wrapf "validate unit update: %w" violation)), tick w1)
        | None =>
            (match fst (unitUseCase.repo_Update repo u2 s1) with
             | Some err => fail (errors.Wrapf "update unit: %w" err)
             | None => ok u2
             end,
             afterCall (tick w1) (CallUpdate u2)
               (snd (unitUseCase.repo_Update repo u2 s1)))
        end
      else (fail unitUseCase.ErrUserIDMismatch, w1)
  end.
Proof.
  intros Hfetch. run. rewrite Hfetch. cbv beta iota zeta.
  destruct (UserID u) as [owner|]; [|reflexivity].
  destruct (uuid.eqb owner userID); [|reflexivity].
  change (negb true) with false. cbv beta iota.
  rewrite onVar_Touch.
  destruct (Validate _); [reflexivity|].
  change (store (tick (afterCall w (CallGetByIDs [id]) s1))) with s1.
  destruct (unitUseCase.repo_Update repo _ s1) as [[err|] s2]; reflexivity.
Qed.

(** Service.Update once its fetch has returned the Unit [u]. *)
Lemma Service_Update_fetched (w : World S) (id userID : uuid.UUID) (name : string)
    (u : Unit) (s1 : S) :
  unitService.repo_GetByID svc id (store w) = (ok u, s1) ->
  unitService.Update Validate svc id userID name w =
  let w1 := afterCall w (CallGetByID id) s1 in
  let u2 := setName (touchedAt u (nextNow w1)) name in
  match UserID u with
  | None => (fail unitService.ErrUserIDMissing, w1)
  | Some owner =>
      if uuid.eqb owner userID then
        match Validate u2 with
        | Some violation =>
            (fail (errors.Wrapf "validate unit update: %w" violation), tick w1)
        | None =>
            (match fst (unitService.repo_Update svc u2 s1) with
             | Some err => fail err
             | None => ok u2
             end,
             afterCall (tick w1) (CallUpdate u2)
               (snd (unitService.repo_Update svc u2 s1)))
        end
      else (fail unitService.ErrUserIDMismatch, w1)
  end.
Proof.
  intros Hfetch. run. rewrite Hfetch. cbv beta iota zeta.
  destruct (UserID u) as [owner|]; [|reflexivity].
  destruct (uuid.eqb owner userID); [|reflexivity].
  change (negb true) with false. cbv beta iota.
  rewrite onVar_Touch.
  destruct (Validate _); [reflexivity|].
  change (store (tick (afterCall w (CallGetByID id) s1))) with s1.
  destruct (unitService.repo_Update svc _ s1) as [[err|] s2]; reflexivity.
Qed.

(** UseCase.Delete once its fetch has returned the one Unit [u]. *)
Lemma UseCase_Delete_fetched (w : World S) (id : uuid.UUID) (u : Unit) (s1 : S) :
  unitUseCase.repo_GetByIDs repo [id] (store w) = (ok [u], s1) ->
  unitUseCase.Delete repo id w =
  let w1 := afterCall w (CallGetByIDs [id]) s1 in
  let u2 := deletedAt u (nextNow w1) in
  (match fst (unitUseCase.repo_Update repo u2 s1) with
   | Some err => fail (errors.Wrapf "update unit for delete: %w" err)
   | None => ok u2
   end,
   afterCall (tick w1) (CallUpdate u2) (snd (unitUseCase.repo_Update repo u2 s1))).
Proof.
  intros Hfetch. run. rewrite Hfetch. cbv beta iota zeta.
  rewrite onVar_MarkDeleted.
  change (store (tick (afterCall w (CallGetByIDs [id]) s1))) with s1.
  destruct (unitUseCase.repo_Update repo _ s1) as [[err|] s2]; reflexivity.
Qed.

(** Service.Delete once its fetch has returned the Unit [u]. *)
Lemma Service_Delete_fetched (w : World S) (id : uuid.UUID) (u : Unit) (s1 : S) :
  unitService.repo_GetByID svc id (store w) = (ok u, s1) ->
  unitService.Delete svc id w =
  let w1 := afterCall w (CallGetByID id) s1 in
  let u2 := deletedAt u (nextNow w1) in
  (match fst (unitService.repo_Update svc u2 s1) with
   | Some err => fail err
   | None => ok u2
   end,
   afterCall (tick w1) (CallUpdate u2) (snd (unitService.repo_Update svc u2 s1))).
Proof.
  intros Hfetch. run. rewrite Hfetch. cbv beta iota zeta.
  rewrite onVar_MarkDeleted.
  change (store (tick (afterCall w (CallGetByID id) s1))) with s1.
  destruct (unitService.repo_Update svc _ s1) as [[err|] s2]; reflexivity.
Qed.

End Runs.

(** C2: on the Unit the fetch of Update returned, UseCase.Update and
    Service.Update fail with their UserIDMissing when the owner is absent
    and with their UserIDMismatch when the owner differs from the
    requesting user, the world being the one the fetch left (the store as
    the fetch left it, the fetch the only call); when the owner is the
    requesting user the touched, renamed Unit is validated and written. *)
Theorem Update_checks_owner :
  forall (S : Type) (Validate : Unit -> option errors.error)
         (repo : unitUseCase.Repository S) (svc : unitService.Repository S)
         (w : World S) (id userID : uuid.UUID) (name : string) (u : Unit) (s1 : S),
    (unitUseCase.repo_GetByIDs repo [id] (store w) = (ok [u], s1) ->
     ownershipRule (afterCall w (CallGetByIDs [id]) s1) u userID
       unitUseCase.ErrUserIDMissing unitUseCase.ErrUserIDMismatch
       (unitUseCase.Update Validate repo id userID name w)
       (savesTouched (afterCall w (CallGetByIDs [id]) s1) u name Validate
          (unitUseCase.repo_Update repo)
          (fun violation => errors.Join unitUseCase.ErrBadParams
                              (errors.Wrapf "validate unit update: %w" violation))
          (fun err => errors.Wrapf "update unit: %w" err)
          (unitUseCase.Update Validate repo id userID name w))) /\
    (unitService.repo_GetByID svc id (store w) = (ok u, s1) ->
     ownershipRule (afterCall w (CallGetByID id) s1) u userID
       unitService.ErrUserIDMissing unitService.ErrUserIDMismatch
       (unitService.Update Validate svc id userID name w)
       (savesTouched (afterCall w (CallGetByID id) s1) u name Validate
          (unitService.repo_Update svc)
          (fun violation => errors.Wrapf "validate unit update: %w" violation)
          (fun err => err)
          (unitService.Update Validate svc id userID name w))).
Proof.
  intros S Validate repo svc w id userID name u s1.
  split; intros Hfetch; unfold ownershipRule; (split; [|split]).
  - intros Hnone.
    rewrite (UseCase_Update_fetched _ _ _ _ _ _ _ _ _ Hfetch). cbv zeta.
    rewrite Hnone. reflexivity.
  - intros owner Hsome Hneq.
    rewrite (UseCase_Update_fetched _ _ _ _ _ _ _ _ _ Hfetch). cbv zeta.
    rewrite Hsome, (uuid_eqb_neq _ _ Hneq). reflexivity.
  - intros Hsome. unfold savesTouched.
    exists (touchedAt u (nextNow (afterCall w (CallGetByIDs [id]) s1))).
    split; [reflexivity|].
    rewrite (UseCase_Update_fetched _ _ _ _ _ _ _ _ _ Hfetch). cbv zeta.
    rewrite Hsome, uuid_eqb_refl.
    destruct (Validate _); [reflexivity|].
    intros e s2 Hwrite.
    change (store (afterCall w (CallGetByIDs [id]) s1)) with s1 in Hwrite.
    rewrite Hwrite. destruct e; reflexivity.
  - intros Hnone.
    rewrite (Service_Update_fetched _ _ _ _ _ _ _ _ _ Hfetch). cbv zeta.
    rewrite Hnone. reflexivity.
  - intros owner Hsome Hneq.
    rewrite (Service_Update_fetched _ _ _ _ _ _ _ _ _ Hfetch). cbv zeta.
    rewrite Hsome, (uuid_eqb_neq _ _ Hneq). reflexivity.
  - intros Hsome. unfold savesTouched.
    exists (touchedAt u (nextNow (afterCall w (CallGetByID id) s1))).
    split; [reflexivity|].
    rewrite (Service_Update_fetched _ _ _ _ _ _ _ _ _ Hfetch). cbv zeta.
    rewrite Hsome, uuid_eqb_refl.
    destruct (Validate _); [reflexivity|].
    intros e s2 Hwrite.
    change (store (afterCall w (CallGetByID id) s1)) with s1 in Hwrite.
    rewrite Hwrite. destruct e; reflexivity.
Qed.

Lemma Update_checks_owner_witness :
  unitUseCase.Update unit.Validate memRepo 7 6 "gamma" (memWorld [beta2024])
    = (fail unitUseCase.ErrUserIDMismatch,
       afterCall (memWorld [beta2024]) (CallGetByIDs [7]) [beta2024]) /\
  savesTouched (afterCall (memWorld [beta2024]) (CallGetByID 7) [beta2024])
    beta2024 "gamma" unit.Validate (unitService.repo_Update memService)
    (fun violation => errors.Wrapf "validate unit update: %w" violation)
    (fun err => err)
    (unitService.Update unit.Validate memService 7 5 "gamma" (memWorld [beta2024])).
Proof.
  split.
  - destruct (Update_checks_owner (list Unit) unit.Validate memRepo memService
                (memWorld [beta2024]) 7 6 "gamma" beta2024 [beta2024])
      as [Huc _].
    destruct (Huc eq_refl) as [_ [Hmismatch _]].
    apply (Hmismatch 5); [reflexivity | discriminate].
  - destruct (Update_checks_owner (list Unit) unit.Validate memRepo memService
                (memWorld [beta2024]) 7 5 "gamma" beta2024 [beta2024])
      as [_ Hsvc].
    destruct (Hsvc eq_refl) as [_ [_ Hproceeds]].
    apply Hproceeds. reflexivity.
Defined.

Lemma keepsDeleted_fail {S} (w : World S) (c : Call) (s1 : S) (err : errors.error) :
  written c = None -> keepsDeleted w (fail err, afterCall w c s1).
Proof.
  intros Hc. split.
  - simpl. discriminate.
  - exists [c]. split; [reflexivity|].
    intros c' v [<-|[]] Hw. congruence.
Qed.

Lemma keepsDeleted_write {S} (w : World S) (c : Call) (s1 s2 : S) (u : Unit)
    (r : result Unit) :
  written c = None -> isDeleted u = true ->
  (forall v, r = ok v -> v = u) ->
  keepsDeleted w (r, afterCall (tick (afterCall w c s1)) (CallUpdate u) s2).
Proof.
  intros Hc Hu Hr. split.
  - simpl. intros v E. rewrite (Hr v E). exact Hu.
  - exists [c; CallUpdate u]. split.
    + simpl. rewrite <- app_assoc. reflexivity.
    + intros c' v [<-|[<-|[]]] Hw.
      * congruence.
      * simpl in Hw. congruence.
Qed.

Lemma keepsDeleted_tick {S} (w : World S) (c : Call) (s1 : S) (err : errors.error) :
  written c = None -> keepsDeleted w (fail err, tick (afterCall w c s1)).
Proof.
  intros Hc. split.
  - simpl. discriminate.
  - exists [c]. split; [reflexivity|].
    intros c' v [<-|[]] Hw. congruence.
Qed.

(** C6: a Unit whose deletedAt is present keeps it present through Touch
    and MarkDeleted; when the fetch of Update or Delete (of the use case
    and of the service) returns such a Unit, the Unit the operation
    returns and every Unit it writes to the repository has deletedAt
    present. *)
Theorem deleted_stays_deleted :
  forall (S : Type) (Validate : Unit -> option errors.error)
         (repo : unitUseCase.Repository S) (svc : unitService.Repository S)
         (w : World S) (id userID : uuid.UUID) (name : string) (u : Unit),
    isDeleted u = true ->
    (exists u', unit.Touch (Some u) w = (Some u', tick w) /\ isDeleted u' = true) /\
    (exists u', unit.MarkDeleted (Some u) w = (Some u', tick w) /\ isDeleted u' = true) /\
    (forall s1, unitUseCase.repo_GetByIDs repo [id] (store w) = (ok [u], s1) ->
       keepsDeleted w (unitUseCase.Update Validate repo id userID name w) /\
       keepsDeleted w (unitUseCase.Delete repo id w)) /\
    (forall s1, unitService.repo_GetByID svc id (store w) = (ok u, s1) ->
       keepsDeleted w (unitService.Update Validate svc id userID name w) /\
       keepsDeleted w (unitService.Delete svc id w)).
Proof.
  intros S Validate repo svc w id userID name u Hdel.
  split; [eexists; split; [apply Touch_eq | exact Hdel]|].
  split; [eexists; split; [apply MarkDeleted_eq | reflexivity]|].
  split; intros s1 Hfetch; split.
  - rewrite (UseCase_Update_fetched _ _ _ _ _ _ _ _ _ Hfetch). cbv zeta.
    destruct (UserID u) as [owner|]; [|now apply keepsDeleted_fail].
    destruct (uuid.eqb owner userID); [|now apply keepsDeleted_fail].
    destruct (Validate _); [now apply keepsDeleted_tick|].
    apply keepsDeleted_write; [reflexivity | exact Hdel |].
    intros v. destruct (fst _); congruence.
  - rewrite (UseCase_Delete_fetched _ _ _ _ _ _ Hfetch). cbv zeta.
    apply keepsDeleted_write; [reflexivity | reflexivity |].
    intros v. destruct (fst _); congruence.
  - rewrite (Service_Update_fetched _ _ _ _ _ _ _ _ _ Hfetch). cbv zeta.
    destruct (UserID u) as [owner|]; [|now apply keepsDeleted_fail].
    destruct (uuid.eqb owner userID); [|now apply keepsDeleted_fail].
    destruct (Validate _); [now apply keepsDeleted_tick|].
    apply keepsDeleted_write; [reflexivity | exact Hdel |].
    intros v. destruct (fst _); congruence.
  - rewrite (Service_Delete_fetched _ _ _ _ _ _ Hfetch). cbv zeta.
    apply keepsDeleted_write; [reflexivity | reflexivity |].
    intros v. destruct (fst _); congruence.
Qed.

Lemma deleted_stays_deleted_witness :
  keepsDeleted (memWorld [gone2024])
    (unitUseCase.Update unit.Validate memRepo 7 5 "gamma" (memWorld [gone2024])) /\
  keepsDeleted (memWorld [gone2024])
    (unitService.Delete memService 7 (memWorld [gone2024])).
Proof.
  destruct (deleted_stays_deleted (list Unit) unit.Validate memRepo memService
              (memWorld [gone2024]) 7 5 "gamma" gone2024 eq_refl)
    as [_ [_ [Huc Hsvc]]].
  split.
  - apply (Huc [gone2024]). reflexivity.
  - apply (Hsvc [gone2024]). reflexivity.
Defined.

(** C7: GetByIDs with an empty id list fails with an error that is
    BadParams and leaves the world as it was: no repository call is
    issued. *)
Theorem GetByIDs_empty_is_BadParams :
  forall (S : Type) (repo : unitUseCase.Repository S) (w : World S),
    exists err,
      unitUseCase.GetByIDs repo [] w = (fail err, w) /\
      errors.Is err errors.uc_ErrBadParams = true.
Proof.
  intros S repo w. eexists. split; reflexivity.
Qed.

(** C8: GetAll with a substring filter that is present and is the empty
    string fails with an error that is BadParams and leaves the world as
    it was: no repository call is issued. *)
Theorem GetAll_present_empty_substring_is_BadParams :
  forall (S : Type) (repo : unitUseCase.Repository S) (w : World S)
         (userID : uuid.UUID),
    exists err,
      unitUseCase.GetAll repo userID (Some ""%string) w = (fail err, w) /\
      errors.Is err errors.uc_ErrBadParams = true.
Proof.
  intros S repo w userID. eexists. split; reflexivity.
Qed.

(** C9: when the by-id fetch of UseCase.Update or UseCase.Delete returns a
    list that does not hold exactly one Unit, the operation fails with an
    error that is none of BadParams, UserIDMismatch and UserIDMissing, and
    the fetch is the only repository call. *)
Theorem Update_Delete_need_one_unit :
  forall (S : Type) (Validate : Unit -> option errors.error)
         (repo : unitUseCase.Repository S) (w : World S)
         (id userID : uuid.UUID) (name : string) (units : list Unit) (s1 : S),
    unitUseCase.repo_GetByIDs repo [id] (store w) = (ok units, s1) ->
    List.length units <> 1%nat ->
    exists eu ed,
      unitUseCase.Update Validate repo id userID name w
        = (fail eu, afterCall w (CallGetByIDs [id]) s1) /\
      unitUseCase.Delete repo id w
        = (fail ed, afterCall w (CallGetByIDs [id]) s1) /\
      (forall v, errors.Is eu v = false) /\
      (forall v, errors.Is ed v = false).
Proof.
  intros S Validate repo w id userID name units s1 Hfetch Hlen.
  destruct units as [|u [|u' rest]].
  - do 2 eexists. run. rewrite Hfetch. repeat split; reflexivity.
  - contradiction Hlen. reflexivity.
  - do 2 eexists. run. rewrite Hfetch. repeat split; reflexivity.
Qed.

Lemma Update_Delete_need_one_unit_witness :
  exists eu ed,
    unitUseCase.Update unit.Validate memRepo 8 5 "gamma" (memWorld [beta2024])
      = (fail eu, afterCall (memWorld [beta2024]) (CallGetByIDs [8]) [beta2024]) /\
    unitUseCase.Delete memRepo 7 (memWorld [beta2024; gone2024])
      = (fail ed, afterCall (memWorld [beta2024; gone2024]) (CallGetByIDs [7])
                    [beta2024; gone2024]) /\
    errors.Is eu errors.uc_ErrBadParams = false /\
    errors.Is ed errors.uc_ErrBadParams = false.
Proof.
  destruct (Update_Delete_need_one_unit (list Unit) unit.Validate memRepo
              (memWorld [beta2024]) 8 5 "gamma" [] [beta2024] eq_refl)
    as [eu [_ [Hu [_ [Iu _]]]]]; [discriminate|].
  destruct (Update_Delete_need_one_unit (list Unit) unit.Validate memRepo
              (memWorld [beta2024; gone2024]) 7 5 "gamma" [beta2024; gone2024]
              [beta2024; gone2024] eq_refl)
    as [_ [ed [_ [Hd [_ Id]]]]]; [discriminate|].
  exists eu, ed. repeat split; [exact Hu | exact Hd | apply Iu | apply Id].
Defined.

(** C10: UseCase.Create builds the Unit with the caller's userID as its
    present owner, the nil identifier included, and that Unit is the only
    one it can return; with the Validate of unit.go, a non-empty name and
    a repository that accepts the write, Create succeeds, whatever the
    userID: the Unit is written and returned. *)
Theorem Create_owner_present :
  forall (S : Type) (Validate : Unit -> option errors.error)
         (repo : unitUseCase.Repository S) (w : World S)
         (userID : uuid.UUID) (name : string),
    exists u,
      unit.New (Some userID) name w = (u, draw (tick w)) /\
      UserID u = Some userID /\
      (forall v, fst (unitUseCase.Create Validate repo userID name w) = ok v -> v = u) /\
      (name <> ""%string ->
       fst (unitUseCase.repo_Create repo u (store w)) = None ->
       unitUseCase.Create unit.Validate repo userID name w
         = (ok u, afterCall (draw (tick w)) (CallCreate u)
                    (snd (unitUseCase.repo_Create repo u (store w))))).
Proof.
  intros S Validate repo w userID name.
  eexists. split; [apply New_eq|]. split; [reflexivity|]. split.
  - intros v. run. rewrite New_eq.
    destruct (Validate _); [discriminate|].
    change (store (draw (tick w))) with (store w).
    destruct (unitUseCase.repo_Create repo _ (store w)) as [[err|] s1]; simpl;
      congruence.
  - intros Hname Hwrite. run. rewrite New_eq.
    pose proof (New_tagsHold (Some userID) name w Hname) as HT.
    rewrite New_eq in HT. simpl fst in HT.
    apply unit_Validate_tags in HT. rewrite HT.
    change (store (draw (tick w))) with (store w).
    destruct (unitUseCase.repo_Create repo _ (store w)) as [e s1].
    simpl in Hwrite. subst e. reflexivity.
Qed.

Lemma Create_owner_present_witness :
  exists u,
    fst (unitUseCase.Create unit.Validate memRepo uuid.Nil "alpha" (memWorld [])) = ok u /\
    UserID u = Some uuid.Nil /\
    store (snd (unitUseCase.Create unit.Validate memRepo uuid.Nil "alpha" (memWorld [])))
      = [u].
Proof.
  destruct (Create_owner_present (list Unit) unit.Validate memRepo (memWorld [])
              uuid.Nil "alpha")
    as [u [_ [Howner [_ Hrun]]]].
  exists u. rewrite Hrun; [|discriminate|reflexivity].
  repeat split. exact Howner.
Defined.

(** With the Validate of unitEntity the same Create is refused. *)
Lemma Create_nil_owner_refused_by_unitEntity :
  exists err,
    unitUseCase.Create unitEntity.Validate memRepo uuid.Nil "alpha" (memWorld [])
      = (fail err, draw (tick (memWorld []))) /\
    errors.Is err errors.uc_ErrBadParams = true.
Proof. eexists. split; reflexivity. Qed.

(** * Further properties of the code *)

(** ** The entity *)

Lemma isZeroValue_false (t : time.Time) :
  time.isZeroValue t = false <-> t <> time.zero.
Proof.
  destruct t as [n m l]. unfold time.isZeroValue, time.zero; simpl.
  destruct (Z.eqb_spec n 0) as [->|Hn]; destruct m, l; simpl; split;
    try congruence; try discriminate.
Qed.

Lemma tagsHold_spec (u : Unit) :
  tagsHold u = true <->
  (ID u <> uuid.Nil /\ CreatedAt u <> time.zero /\ UpdatedAt u <> time.zero /\
   Name u <> ""%string) /\
  1 <= Version u /\
  notBefore (UpdatedAt u) (CreatedAt u).
Proof.
  unfold tagsHold, invariant1, invariant2, gtecsfieldHolds.
  rewrite !andb_true_iff, !negb_true_iff.
  rewrite !isZeroValue_false, Z.leb_le, gte_spec.
  unfold uuid.eqb. rewrite Z.eqb_neq.
  assert (HN : String.eqb (Name u) "" = false <-> Name u <> ""%string)
    by apply String.eqb_neq.
  rewrite HN. tauto.
Qed.

Lemma invariant4_spec (u : Unit) :
  invariant4 u = true <-> forall t, DeletedAt u = Some t -> time.ns t <> 0.
Proof.
  unfold invariant4, time.IsZero. destruct (DeletedAt u) as [t|].
  - rewrite negb_true_iff, Z.eqb_neq. split.
    + intros H t' E. congruence.
    + intros H. apply H. reflexivity.
  - split; [discriminate | reflexivity].
Qed.

Lemma invariant5_spec (u : Unit) :
  invariant5 u = true <-> forall i, UserID u = Some i -> i <> uuid.Nil.
Proof.
  unfold invariant5, uuid.eqb. destruct (UserID u) as [i|].
  - rewrite negb_true_iff, Z.eqb_neq. split.
    + intros H i' E. congruence.
    + intros H. apply H. reflexivity.
  - split; [discriminate | reflexivity].
Qed.

(** X1: the Validate of unitEntity answers nil exactly when the id is not
    nil, createdAt and updatedAt are not the zero Time, the name is not
    empty, version is at least 1, updatedAt is not before createdAt as Go
    compares them (by their monotonic readings when both carry one, else by
    their instants), a present deletedAt is not the zero instant and a
    present userID is not the nil identifier. *)
Theorem unitEntity_Validate_succeeds_iff :
  forall u : Unit,
    unitEntity.Validate u = None <->
    (ID u <> uuid.Nil /\ CreatedAt u <> time.zero /\ UpdatedAt u <> time.zero /\
     Name u <> ""%string) /\
    1 <= Version u /\
    match time.mono (UpdatedAt u), time.mono (CreatedAt u) with
    | Some updated, Some created => created <= updated
    | _, _ => time.ns (CreatedAt u) <= time.ns (UpdatedAt u)
    end /\
    (forall t, DeletedAt u = Some t -> time.ns t <> 0) /\
    (forall i, UserID u = Some i -> i <> uuid.Nil).
Proof.
  intros u.
  rewrite unitEntity_Validate_checks.
  unfold checksHold.
  rewrite !andb_true_iff, tagsHold_spec, invariant4_spec, invariant5_spec.
  unfold notBefore. tauto.
Qed.

(** X2: the Validate of unit.go answers nil exactly when the id is not
    nil, createdAt and updatedAt are not the zero Time, the name is not
    empty, version is at least 1 and updatedAt is not before createdAt as
    Go compares them (by their monotonic readings when both carry one, else
    by their instants); its answer, error included, never depends on
    deletedAt or userID. *)
Theorem unit_Validate_ignores_optional_fields :
  forall (u : Unit) (d : option time.Time) (o : option uuid.UUID),
    (unit.Validate u = None <->
     (ID u <> uuid.Nil /\ CreatedAt u <> time.zero /\ UpdatedAt u <> time.zero /\
      Name u <> ""%string) /\
     1 <= Version u /\
     match time.mono (UpdatedAt u), time.mono (CreatedAt u) with
     | Some updated, Some created => created <= updated
     | _, _ => time.ns (CreatedAt u) <= time.ns (UpdatedAt u)
     end) /\
    unit.Validate (withOptional u d o) = unit.Validate u.
Proof.
  intros u d o. split.
  - rewrite unit_Validate_tags. apply tagsHold_spec.
  - destruct u as [i v c up d0 o0 n].
    unfold unit.Validate, validator.Struct, withOptional, unit.fields.
    unfold flat_map, validator.traverseField, validator.effectiveTags.
    cbn [validator.tags validator.val validator.name validator.runTags
         validator.hasValue ID Version CreatedAt UpdatedAt DeletedAt UserID Name].
    destruct d, o, d0, o0; reflexivity.
Qed.

(** X3: a freshly constructed Unit passes the Validate of unit.go exactly
    when its name is not empty, and the Validate of unitEntity exactly when
    moreover its owner is absent or not the nil identifier. *)
Theorem New_validates_iff :
  forall (S : Type) (w : World S) (userID : option uuid.UUID) (name : string),
    (unit.Validate (fst (unit.New userID name w)) = None <-> name <> ""%string) /\
    (unitEntity.Validate (fst (unitEntity.New userID name w)) = None <->
     name <> ""%string /\ userID <> Some uuid.Nil).
Proof.
  intros S w userID name. split.
  - split.
    + intros H. apply unit_Validate_tags, tagsHold_spec in H.
      rewrite New_eq in H. simpl in H. tauto.
    + intros H. apply unit_Validate_tags, New_tagsHold, H.
  - rewrite unitEntity_New_eq. split.
    + intros H. apply unitEntity_Validate_checks in H.
      unfold checksHold in H.
      rewrite !andb_true_iff in H. destruct H as [[HT _] H5].
      apply tagsHold_spec in HT.
      pose proof (proj1 (invariant5_spec _) H5) as H5'. clear H5.
      rename H5' into H5.
      rewrite New_eq in HT, H5. simpl in HT, H5. split; [tauto|].
      intros ->. apply (H5 uuid.Nil); reflexivity.
    + intros [Hname Howner]. apply unitEntity_Validate_checks.
      unfold checksHold.
      rewrite (New_tagsHold userID name w Hname).
      rewrite !andb_true_iff. split; [split; [reflexivity|]|].
      * rewrite New_eq. reflexivity.
      * apply invariant5_spec. rewrite New_eq. simpl. intros i Hi Hn. subst.
        apply Howner. reflexivity.
Qed.

(** X4: MarkDeleted twice leaves what one MarkDeleted at the second clock
    reading leaves: deletedAt and updatedAt are refreshed, the version and
    every other field stay; on a nil reference it does nothing and does
    not read the clock. *)
Theorem MarkDeleted_twice :
  forall (S : Type) (w : World S) (u : Unit),
    (p <- unit.MarkDeleted (Some u) ;; unit.MarkDeleted p) w
      = unit.MarkDeleted (Some u) (tick w) /\
    (p <- unit.MarkDeleted None ;; unit.MarkDeleted p) w = (None, w).
Proof.
  intros S w u. split; reflexivity.
Qed.

(** ** The use case: reads *)

(** X5: GetByIDs with a non-empty id list issues exactly one repository
    call, GetByIDs with the same ids; it returns the repository's Units as
    they are, and on a repository error an error that [errors.Is] matches
    exactly as it matches the repository's. *)
Theorem GetByIDs_delegates :
  forall (S : Type) (repo : unitUseCase.Repository S) (w : World S)
         (ids : list uuid.UUID),
    ids <> [] ->
    snd (unitUseCase.GetByIDs repo ids w)
      = afterCall w (CallGetByIDs ids) (snd (unitUseCase.repo_GetByIDs repo ids (store w))) /\
    (forall units, fst (unitUseCase.repo_GetByIDs repo ids (store w)) = ok units ->
       fst (unitUseCase.GetByIDs repo ids w) = ok units) /\
    (forall err, fst (unitUseCase.repo_GetByIDs repo ids (store w)) = fail err ->
       exists e, fst (unitUseCase.GetByIDs repo ids w) = fail e /\
                 forall v, errors.Is e v = errors.Is err v).
Proof.
  intros S repo w ids Hids.
  destruct ids as [|i ids]; [contradiction Hids; reflexivity|].
  run. cbn [List.length Nat.eqb]. cbv beta iota.
  destruct (unitUseCase.repo_GetByIDs repo (i :: ids) (store w)) as [[units|err] s1];
    simpl; (split; [reflexivity|]); split.
  - intros units' E. injection E as <-. reflexivity.
  - discriminate.
  - discriminate.
  - intros err' E. injection E as <-. eexists. split; reflexivity.
Qed.

Lemma GetByIDs_delegates_witness :
  fst (unitUseCase.GetByIDs memRepo [7] (memWorld [beta2024])) = ok [beta2024] /\
  calls (snd (unitUseCase.GetByIDs memRepo [7] (memWorld [beta2024])))
    = [CallGetByIDs [7]].
Proof.
  destruct (GetByIDs_delegates (list Unit) memRepo (memWorld [beta2024]) [7])
    as [Hw [Hok _]]; [discriminate|].
  split.
  - apply Hok. reflexivity.
  - rewrite Hw. reflexivity.
Defined.

(** X6: GetAll with an absent or non-empty substring issues exactly one
    repository call, GetAll with the same user id and substring; it returns
    the repository's Units as they are, and on a repository error an error
    that [errors.Is] matches exactly as it matches the repository's. *)
Theorem GetAll_delegates :
  forall (S : Type) (repo : unitUseCase.Repository S) (w : World S)
         (userID : uuid.UUID) (substring : option string),
    substring <> Some ""%string ->
    snd (unitUseCase.GetAll repo userID substring w)
      = afterCall w (CallGetAll userID substring)
          (snd (unitUseCase.repo_GetAll repo userID substring (store w))) /\
    (forall units,
       fst (unitUseCase.repo_GetAll repo userID substring (store w)) = ok units ->
       fst (unitUseCase.GetAll repo userID substring w) = ok units) /\
    (forall err,
       fst (unitUseCase.repo_GetAll repo userID substring (store w)) = fail err ->
       exists e, fst (unitUseCase.GetAll repo userID substring w) = fail e /\
                 forall v, errors.Is e v = errors.Is err v).
Proof.
  intros S repo w userID substring Hsub.
  assert (Hguard : presentAnd substring (fun s => String.eqb s "") = false).
  { destruct substring as [s|]; [|reflexivity]. simpl.
    destruct (String.eqb_spec s ""); [|reflexivity].
    subst s. contradiction Hsub. reflexivity. }
  run. rewrite Hguard. cbv beta iota.
  destruct (unitUseCase.repo_GetAll repo userID substring (store w)) as [[units|err] s1];
    simpl; (split; [reflexivity|]); split.
  - intros units' E. injection E as <-. reflexivity.
  - discriminate.
  - discriminate.
  - intros err' E. injection E as <-. eexists. split; reflexivity.
Qed.

Lemma GetAll_delegates_witness :
  fst (unitUseCase.GetAll memRepo 5 (Some "et"%string) (memWorld [beta2024]))
    = ok [beta2024] /\
  calls (snd (unitUseCase.GetAll memRepo 5 None (memWorld [beta2024])))
    = [CallGetAll 5 None].
Proof.
  split.
  - destruct (GetAll_delegates (list Unit) memRepo (memWorld [beta2024]) 5
                (Some "et"%string)) as [_ [Hok _]]; [discriminate|].
    apply Hok. reflexivity.
  - destruct (GetAll_delegates (list Unit) memRepo (memWorld [beta2024]) 5 None)
      as [Hw _]; [discriminate|].
    rewrite Hw. reflexivity.
Defined.

(** ** The use case: Create *)

(** What [validate.Struct] reports for a fresh Unit with the empty name. *)
Lemma New_empty_name_violation {S} (userID : option uuid.UUID) (w : World S) :
  unit.Validate (fst (unit.New userID "" w))
    = Some (errors.ValidationErrors
              [ {| errors.Field := "Name"; errors.Tag := "required" |} ]) /\
  unitEntity.Validate (fst (unit.New userID "" w))
    = Some (errors.Wrapf "validate unit: %w"
              (errors.ValidationErrors
                 [ {| errors.Field := "Name"; errors.Tag := "required" |} ])).
Proof.
  rewrite New_eq. cbn [fst].
  unfold unit.Validate, unitEntity.Validate, validator.Struct, unit.fields,
    unitEntity.fields, flat_map, validator.traverseField, validator.effectiveTags,
    validator.isGteCrossStructField.
  cbn -[Z.eqb Z.ltb Z.leb time.isZeroValue time.After time.Equal uuid.eqb nextUUID nextNow].
  unfold nextUUID, nextNow.
  rewrite uuid_New_not_Nil, time_Now_hasValue.
  rewrite gte_refl.
  destruct userID; split; reflexivity.
Qed.

(** X7: Create with the empty name fails, under the Validate of either
    entity revision, with an error that is BadParams and wraps the
    validator's one violation, required on Name; the clock and the random
    source have been read, and no repository call is issued. *)
Theorem Create_empty_name_is_BadParams :
  forall (S : Type) (repo : unitUseCase.Repository S) (w : World S)
         (userID : uuid.UUID),
    unitUseCase.Create unit.Validate repo userID "" w
      = (fail (errors.Join unitUseCase.ErrBadParams
                 (errors.Wrapf "validate unit create: %w"
                    (errors.ValidationErrors
                       [ {| errors.Field := "Name"; errors.Tag := "required" |} ]))),
         draw (tick w)) /\
    unitUseCase.Create unitEntity.Validate repo userID "" w
      = (fail (errors.Join unitUseCase.ErrBadParams
                 (errors.Wrapf "validate unit create: %w"
                    (errors.Wrapf "validate unit: %w"
                       (errors.ValidationErrors
                          [ {| errors.Field := "Name"; errors.Tag := "required" |} ])))),
         draw (tick w)) /\
    calls (draw (tick w)) = calls w /\ store (draw (tick w)) = store w.
Proof.
  intros S repo w userID.
  destruct (New_empty_name_violation (Some userID) w) as [H1 H2].
  rewrite New_eq in H1, H2. cbn [fst] in H1, H2.
  split; [|split; [|split; reflexivity]].
  - run. rewrite New_eq, H1. reflexivity.
  - run. rewrite New_eq, H2. reflexivity.
Qed.

(** X8: Create validates before it writes. If the fresh Unit does not
    validate, the result is an error that is BadParams and no repository
    call is issued; if it validates, exactly one call is issued, Create
    with that Unit, and a repository error comes back as an error that
    [errors.Is] matches exactly as it matches the repository's. *)
Theorem Create_validates_before_write :
  forall (S : Type) (Validate : Unit -> option errors.error)
         (repo : unitUseCase.Repository S) (w : World S)
         (userID : uuid.UUID) (name : string),
    (forall violation,
       Validate (fst (unit.New (Some userID) name w)) = Some violation ->
       exists e,
         unitUseCase.Create Validate repo userID name w = (fail e, draw (tick w)) /\
         errors.Is e errors.uc_ErrBadParams = true) /\
    (Validate (fst (unit.New (Some userID) name w)) = None ->
     snd (unitUseCase.Create Validate repo userID name w)
       = afterCall (draw (tick w)) (CallCreate (fst (unit.New (Some userID) name w)))
           (snd (unitUseCase.repo_Create repo (fst (unit.New (Some userID) name w))
                   (store w))) /\
     forall err,
       fst (unitUseCase.repo_Create repo (fst (unit.New (Some userID) name w)) (store w))
         = Some err ->
       exists e,
         fst (unitUseCase.Create Validate repo userID name w) = fail e /\
         forall v, errors.Is e v = errors.Is err v).
Proof.
  intros S Validate repo w userID name. rewrite New_eq. cbn [fst]. split.
  - intros violation HV. eexists. run. rewrite New_eq, HV. split; reflexivity.
  - intros HV. run. rewrite New_eq, HV.
    change (store (draw (tick w))) with (store w).
    destruct (unitUseCase.repo_Create repo _ (store w)) as [[err|] s1]; simpl.
    + split; [reflexivity|]. intros err' E. injection E as <-.
      eexists. split; reflexivity.
    + split; [reflexivity|]. discriminate.
Qed.

Lemma Create_validates_before_write_witness :
  calls (snd (unitUseCase.Create unitEntity.Validate memRepo 5 "alpha" (memWorld [])))
    = [CallCreate (fst (unit.New (Some 5) "alpha" (memWorld [])))] /\
  exists e,
    unitUseCase.Create unitEntity.Validate memRepo uuid.Nil "alpha" (memWorld [])
      = (fail e, draw (tick (memWorld []))) /\
    errors.Is e errors.uc_ErrBadParams = true.
Proof.
  split.
  - destruct (Create_validates_before_write (list Unit) unitEntity.Validate memRepo
                (memWorld []) 5 "alpha") as [_ Hvalid].
    destruct (Hvalid eq_refl) as [Hw _]. rewrite Hw. reflexivity.
  - destruct (Create_validates_before_write (list Unit) unitEntity.Validate memRepo
                (memWorld []) uuid.Nil "alpha") as [Hinvalid _].
    apply (Hinvalid (errors.Errorf "validate unit user id: value is zero" [])).
    reflexivity.
Defined.

(** ** The use case: Update and Delete *)

(** X9: when the by-id fetch of Update or Delete fails, the operation
    fails with an error that [errors.Is] matches exactly as it matches the
    repository's, and the fetch is the only repository call. *)
Theorem Update_Delete_fetch_error :
  forall (S : Type) (Validate : Unit -> option errors.error)
         (repo : unitUseCase.Repository S) (w : World S)
         (id userID : uuid.UUID) (name : string) (err : errors.error) (s1 : S),
    unitUseCase.repo_GetByIDs repo [id] (store w) = (fail err, s1) ->
    exists eu ed,
      unitUseCase.Update Validate repo id userID name w
        = (fail eu, afterCall w (CallGetByIDs [id]) s1) /\
      unitUseCase.Delete repo id w
        = (fail ed, afterCall w (CallGetByIDs [id]) s1) /\
      (forall v, errors.Is eu v = errors.Is err v) /\
      (forall v, errors.Is ed v = errors.Is err v).
Proof.
  intros S Validate repo w id userID name err s1 Hfetch.
  do 2 eexists. run. rewrite Hfetch. repeat split; reflexivity.
Qed.

Lemma Update_Delete_fetch_error_witness :
  exists eu ed,
    unitUseCase.Update unit.Validate downRepo 7 5 "gamma" (memWorld [beta2024])
      = (fail eu, afterCall (memWorld [beta2024]) (CallGetByIDs [7]) [beta2024]) /\
    unitUseCase.Delete downRepo 7 (memWorld [beta2024])
      = (fail ed, afterCall (memWorld [beta2024]) (CallGetByIDs [7]) [beta2024]) /\
    errors.Is eu errors.uc_ErrBadParams = false /\
    errors.Is ed errors.uc_ErrBadParams = false.
Proof.
  destruct (Update_Delete_fetch_error (list Unit) unit.Validate downRepo
              (memWorld [beta2024]) 7 5 "gamma" (errors.Foreign 1) [beta2024] eq_refl)
    as [eu [ed [Hu [Hd [Iu Id]]]]].
  exists eu, ed. repeat split; [exact Hu | exact Hd | apply Iu | apply Id].
Defined.

(** X10: Delete checks neither the owner nor the validity of the fetched
    Unit: whatever Unit the fetch returns, Delete (of the use case and of
    the service) issues one write after the fetch, of that Unit with only
    updatedAt and deletedAt set to the clock reading. *)
Theorem Delete_writes_any_unit :
  forall (S : Type) (repo : unitUseCase.Repository S) (svc : unitService.Repository S)
         (w : World S) (id : uuid.UUID) (u : Unit) (s1 : S),
    exists v,
      (ID v = ID u /\ Version v = Version u /\ CreatedAt v = CreatedAt u /\
       UserID v = UserID u /\ Name v = Name u /\
       UpdatedAt v = nextNow w /\ DeletedAt v = Some (nextNow w)) /\
      (unitUseCase.repo_GetByIDs repo [id] (store w) = (ok [u], s1) ->
       calls (snd (unitUseCase.Delete repo id w))
         = calls w ++ [CallGetByIDs [id]; CallUpdate v]) /\
      (unitService.repo_GetByID svc id (store w) = (ok u, s1) ->
       calls (snd (unitService.Delete svc id w))
         = calls w ++ [CallGetByID id; CallUpdate v]).
Proof.
  intros S repo svc w id u s1.
  exists (deletedAt u (nextNow w)).
  split; [repeat split|]. split; intros Hfetch.
  - rewrite (UseCase_Delete_fetched _ _ _ _ _ _ Hfetch). cbv zeta. simpl.
    rewrite <- app_assoc. reflexivity.
  - rewrite (Service_Delete_fetched _ _ _ _ _ _ Hfetch). cbv zeta. simpl.
    rewrite <- app_assoc. reflexivity.
Qed.

Lemma Delete_writes_any_unit_witness :
  exists v,
    UserID v = None /\ Name v = ""%string /\ IsPresent (DeletedAt v) = true /\
    calls (snd (unitUseCase.Delete memRepo 9 (memWorld [orphan])))
      = [CallGetByIDs [9]; CallUpdate v].
Proof.
  destruct (Delete_writes_any_unit (list Unit) memRepo memService (memWorld [orphan])
              9 orphan [orphan])
    as [v [[_ [_ [_ [Ho [Hn [_ Hd]]]]]] [Huc _]]].
  exists v. split; [exact Ho|]. split; [exact Hn|]. split; [rewrite Hd; reflexivity|].
  apply Huc. reflexivity.
Defined.

(** X11: whenever Update returns a Unit, the fetch returned exactly one
    Unit, its owner is the requesting user, the returned Unit is that Unit
    touched and renamed, it passed Validate, the repository accepted its
    write, and the calls issued are the fetch and that write. *)
Theorem Update_ok_inversion :
  forall (S : Type) (Validate : Unit -> option errors.error)
         (repo : unitUseCase.Repository S) (w : World S)
         (id userID : uuid.UUID) (name : string) (v : Unit),
    fst (unitUseCase.Update Validate repo id userID name w) = ok v ->
    exists u s1,
      unitUseCase.repo_GetByIDs repo [id] (store w) = (ok [u], s1) /\
      UserID u = Some userID /\
      v = setName (touchedAt u (nextNow w)) name /\
      Validate v = None /\
      fst (unitUseCase.repo_Update repo v s1) = None /\
      calls (snd (unitUseCase.Update Validate repo id userID name w))
        = calls w ++ [CallGetByIDs [id]; CallUpdate v].
Proof.
  intros S Validate repo w id userID name v Hok.
  destruct (unitUseCase.repo_GetByIDs repo [id] (store w)) as [[units|err] s1] eqn:Hfetch.
  - destruct units as [|u [|u' rest]].
    + revert Hok. run. rewrite Hfetch. discriminate.
    + rewrite (UseCase_Update_fetched _ _ _ _ _ _ _ _ _ Hfetch) in Hok |- *.
      cbv zeta in Hok |- *.
      destruct (UserID u) as [owner|] eqn:Howner; [|discriminate Hok].
      unfold uuid.eqb in Hok |- *.
      destruct (Z.eqb_spec owner userID) as [->|]; [|discriminate Hok].
      destruct (Validate _) eqn:HV; [discriminate Hok|].
      destruct (fst (unitUseCase.repo_Update repo _ s1)) eqn:Hwrite;
        [discriminate Hok|].
      simpl in Hok. injection Hok as <-.
      exists u, s1. repeat split; try assumption.
      simpl. rewrite <- app_assoc. reflexivity.
    + revert Hok. run. rewrite Hfetch. discriminate.
  - revert Hok. run. rewrite Hfetch. discriminate.
Qed.

Lemma Update_ok_inversion_witness :
  exists u s1,
    unitUseCase.repo_GetByIDs memRepo [7] (store (memWorld [beta2024])) = (ok [u], s1) /\
    UserID u = Some 5.
Proof.
  destruct (Update_ok_inversion (list Unit) unit.Validate memRepo (memWorld [beta2024])
              7 5 "gamma"
              (setName (touchedAt beta2024 (nextNow (memWorld [beta2024]))) "gamma")
              eq_refl)
    as [u [s1 [Hf [Ho _]]]].
  exists u, s1. split; [exact Hf | exact Ho].
Defined.

(** Update on a fetched Unit of the requesting user whose touched, renamed
    copy fails a tag: both entity revisions answer BadParams, and nothing
    is written. *)
Lemma Update_invalid {S} (repo : unitUseCase.Repository S) (w : World S)
    (id userID : uuid.UUID) (name : string) (u : Unit) (s1 : S) :
  unitUseCase.repo_GetByIDs repo [id] (store w) = (ok [u], s1) ->
  UserID u = Some userID ->
  tagsHold (setName (touchedAt u (nextNow w)) name) = false ->
  exists e1 e2,
    unitUseCase.Update unit.Validate repo id userID name w
      = (fail e1, tick (afterCall w (CallGetByIDs [id]) s1)) /\
    unitUseCase.Update unitEntity.Validate repo id userID name w
      = (fail e2, tick (afterCall w (CallGetByIDs [id]) s1)) /\
    errors.Is e1 errors.uc_ErrBadParams = true /\
    errors.Is e2 errors.uc_ErrBadParams = true.
Proof.
  intros Hfetch Howner HT.
  rewrite !(UseCase_Update_fetched _ _ _ _ _ _ _ _ _ Hfetch). cbv zeta.
  rewrite Howner, uuid_eqb_refl.
  change (nextNow (afterCall w (CallGetByIDs [id]) s1)) with (nextNow w).
  destruct (unit.Validate _) as [e1|] eqn:H1.
  - destruct (unitEntity.Validate _) as [e2|] eqn:H2.
    + do 2 eexists. repeat split; reflexivity.
    + apply unitEntity_Validate_checks in H2. unfold checksHold in H2.
      rewrite HT in H2. discriminate H2.
  - apply unit_Validate_tags in H1. congruence.
Qed.

(** X12: Update by the owner of a fetched Unit that passes unitEntity's
    Validate, with a non-empty name, a version below the largest int and
    a clock reading that is not before createdAt as Go compares them,
    succeeds under the Validate of either entity revision when the
    repository accepts the one write: the returned Unit has the new name,
    version + 1 and updatedAt at the clock reading, its other fields as
    fetched, and passes unitEntity's Validate. *)
Theorem Update_by_owner_succeeds :
  forall (S : Type) (repo : unitUseCase.Repository S) (w : World S)
         (id userID : uuid.UUID) (name : string) (u : Unit) (s1 : S),
    unitUseCase.repo_GetByIDs repo [id] (store w) = (ok [u], s1) ->
    UserID u = Some userID ->
    unitEntity.Validate u = None ->
    Version u < int_max ->
    notBefore (nextNow w) (CreatedAt u) ->
    name <> ""%string ->
    fst (unitUseCase.repo_Update repo (setName (touchedAt u (nextNow w)) name) s1)
      = None ->
    exists v,
      fst (unitUseCase.Update unit.Validate repo id userID name w) = ok v /\
      fst (unitUseCase.Update unitEntity.Validate repo id userID name w) = ok v /\
      Name v = name /\ Version v = Version u + 1 /\ UpdatedAt v = nextNow w /\
      ID v = ID u /\ CreatedAt v = CreatedAt u /\ DeletedAt v = DeletedAt u /\
      UserID v = UserID u /\
      unitEntity.Validate v = None.
Proof.
  intros S repo w id userID name u s1 Hfetch Howner Hvalid Hmax Hclock Hname Hwrite.
  exists (setName (touchedAt u (nextNow w)) name).
  apply unitEntity_Validate_checks in Hvalid. unfold checksHold in Hvalid.
  rewrite !andb_true_iff in Hvalid. destruct Hvalid as [[HT H4] H5].
  apply tagsHold_spec in HT. destruct HT as [[Hid [Hc [_ _]]] [Hv _]].
  assert (Hwrap : int_wrap (Version u + 1) = Version u + 1).
  { apply int_wrap_id. unfold int_min, int_max in *. lia. }
  assert (Hnow : nextNow w <> time.zero).
  { apply isZeroValue_false. apply time_Now_hasValue. }
  assert (HT' : tagsHold (setName (touchedAt u (nextNow w)) name) = true).
  { apply tagsHold_spec. simpl. rewrite Hwrap.
    repeat split; try assumption; lia. }
  assert (HC : checksHold (setName (touchedAt u (nextNow w)) name) = true).
  { unfold checksHold. rewrite HT'. unfold invariant4, invariant5 in *. simpl.
    rewrite H4, H5. reflexivity. }
  rewrite !(UseCase_Update_fetched _ _ _ _ _ _ _ _ _ Hfetch). cbv zeta.
  rewrite Howner, uuid_eqb_refl.
  change (nextNow (afterCall w (CallGetByIDs [id]) s1)) with (nextNow w).
  rewrite (proj2 (unit_Validate_tags _) HT').
  rewrite (proj2 (unitEntity_Validate_checks _) HC).
  rewrite Hwrite. simpl.
  repeat split; try reflexivity; try assumption.
Qed.

Lemma Update_by_owner_succeeds_witness :
  exists v,
    fst (unitUseCase.Update unitEntity.Validate memRepo 7 5 "gamma" (memWorld [gone2024]))
      = ok v /\
    Name v = "gamma"%string /\ Version v = 3 /\ DeletedAt v = Some t2024.
Proof.
  destruct (Update_by_owner_succeeds (list Unit) memRepo (memWorld [gone2024]) 7 5
              "gamma" gone2024 [gone2024])
    as [v [_ [Hok [Hn [Hv [_ [_ [_ [Hd _]]]]]]]]].
  - reflexivity.
  - reflexivity.
  - reflexivity.
  - reflexivity.
  - vm_compute. discriminate.
  - discriminate.
  - reflexivity.
  - exists v. split; [exact Hok|]. split; [exact Hn|]. split; [exact Hv | exact Hd].
Defined.

(** X13: Update with the empty name, by the owner of the fetched Unit,
    fails under the Validate of either entity revision with an error that
    is BadParams; the clock has been read and the fetch is the only
    repository call. *)
Theorem Update_empty_name_is_BadParams :
  forall (S : Type) (repo : unitUseCase.Repository S) (w : World S)
         (id userID : uuid.UUID) (u : Unit) (s1 : S),
    unitUseCase.repo_GetByIDs repo [id] (store w) = (ok [u], s1) ->
    UserID u = Some userID ->
    exists e1 e2,
      unitUseCase.Update unit.Validate repo id userID "" w
        = (fail e1, tick (afterCall w (CallGetByIDs [id]) s1)) /\
      unitUseCase.Update unitEntity.Validate repo id userID "" w
        = (fail e2, tick (afterCall w (CallGetByIDs [id]) s1)) /\
      errors.Is e1 errors.uc_ErrBadParams = true /\
      errors.Is e2 errors.uc_ErrBadParams = true.
Proof.
  intros S repo w id userID u s1 Hfetch Howner.
  apply (Update_invalid repo w id userID "" u s1 Hfetch Howner).
  unfold tagsHold, invariant1. simpl.
  rewrite !andb_false_r. reflexivity.
Qed.

Lemma Update_empty_name_is_BadParams_witness :
  exists e,
    unitUseCase.Update unitEntity.Validate memRepo 7 5 "" (memWorld [beta2024])
      = (fail e, tick (afterCall (memWorld [beta2024]) (CallGetByIDs [7]) [beta2024])) /\
    errors.Is e errors.uc_ErrBadParams = true.
Proof.
  destruct (Update_empty_name_is_BadParams (list Unit) memRepo (memWorld [beta2024])
              7 5 beta2024 [beta2024] eq_refl eq_refl)
    as [_ [e [_ [H [_ HI]]]]].
  exists e. split; [exact H | exact HI].
Defined.

(** X14: Update by the owner fails with BadParams and writes nothing when
    the clock reading is before the fetched createdAt as Go compares them
    (by their monotonic readings when both carry one, else by their
    instants: the new updatedAt would precede createdAt), and when the
    fetched version is the largest int (the incremented version wraps to a
    negative number). *)
Theorem Update_refuses_stale_clock_and_last_version :
  forall (S : Type) (repo : unitUseCase.Repository S) (w : World S)
         (id userID : uuid.UUID) (name : string) (u : Unit) (s1 : S),
    unitUseCase.repo_GetByIDs repo [id] (store w) = (ok [u], s1) ->
    UserID u = Some userID ->
    before (nextNow w) (CreatedAt u) \/ Version u = int_max ->
    exists e1 e2,
      unitUseCase.Update unit.Validate repo id userID name w
        = (fail e1, tick (afterCall w (CallGetByIDs [id]) s1)) /\
      unitUseCase.Update unitEntity.Validate repo id userID name w
        = (fail e2, tick (afterCall w (CallGetByIDs [id]) s1)) /\
      errors.Is e1 errors.uc_ErrBadParams = true /\
      errors.Is e2 errors.uc_ErrBadParams = true.
Proof.
  intros S repo w id userID name u s1 Hfetch Howner Hedge.
  apply (Update_invalid repo w id userID name u s1 Hfetch Howner).
  destruct (tagsHold _) eqn:HT; [|reflexivity].
  apply tagsHold_spec in HT. simpl in HT.
  destruct HT as [_ [Hv Ht]]. destruct Hedge as [Hclock | Hlast].
  - apply gte_spec in Ht. apply gte_false in Hclock. congruence.
  - rewrite Hlast in Hv. vm_compute in Hv. contradiction Hv. reflexivity.
Qed.

Lemma Update_refuses_stale_clock_and_last_version_witness :
  (exists e,
     unitUseCase.Update unit.Validate memRepo 7 5 "gamma" (memWorld [created2030])
       = (fail e, tick (afterCall (memWorld [created2030]) (CallGetByIDs [7])
                          [created2030])) /\
     errors.Is e errors.uc_ErrBadParams = true) /\
  (exists e,
     unitUseCase.Update unit.Validate memRepo 7 5 "gamma" (memWorld [lastVersion])
       = (fail e, tick (afterCall (memWorld [lastVersion]) (CallGetByIDs [7])
                          [lastVersion])) /\
     errors.Is e errors.uc_ErrBadParams = true).
Proof.
  split.
  - destruct (Update_refuses_stale_clock_and_last_version (list Unit) memRepo
                (memWorld [created2030]) 7 5 "gamma" created2030 [created2030]
                eq_refl eq_refl (or_introl eq_refl))
      as [e [_ [H [_ [HI _]]]]].
    exists e. split; [exact H | exact HI].
  - destruct (Update_refuses_stale_clock_and_last_version (list Unit) memRepo
                (memWorld [lastVersion]) 7 5 "gamma" lastVersion [lastVersion]
                eq_refl eq_refl (or_intror eq_refl))
      as [e [_ [H [_ [HI _]]]]].
    exists e. split; [exact H | exact HI].
Defined.

(** ** At most one write *)

Lemma oneWriteAtMost_none {S} (w : World S) : oneWriteAtMost w w.
Proof.
  exists []. split; [|reflexivity].
  split; [symmetry; apply app_nil_r | repeat split].
Qed.

Lemma oneWriteAtMost_clock {S} (w : World S) : oneWriteAtMost w (tick w).
Proof.
  exists []. split; [|reflexivity].
  split; [symmetry; apply app_nil_r | repeat split].
Qed.

Lemma oneWriteAtMost_fresh {S} (w : World S) : oneWriteAtMost w (draw (tick w)).
Proof.
  exists []. split; [|reflexivity].
  split; [symmetry; apply app_nil_r | repeat split].
Qed.

Lemma oneWriteAtMost_call {S} (w : World S) (c : Call) (s1 : S) :
  oneWriteAtMost w (afterCall w c s1).
Proof.
  exists [c]. split; [|reflexivity]. split; [reflexivity | repeat split].
Qed.

Lemma oneWriteAtMost_call_fresh {S} (w : World S) (c : Call) (s1 : S) :
  oneWriteAtMost w (afterCall (draw (tick w)) c s1).
Proof.
  exists [c]. split; [|reflexivity]. split; [reflexivity | repeat split].
Qed.

Lemma oneWriteAtMost_read_clock {S} (w : World S) (c : Call) (s1 : S) :
  oneWriteAtMost w (tick (afterCall w c s1)).
Proof.
  exists [c]. split; [|reflexivity]. split; [reflexivity | repeat split].
Qed.

Lemma oneWriteAtMost_read_write {S} (w : World S) (c : Call) (s1 s2 : S) (u : Unit) :
  isWrite c = false ->
  oneWriteAtMost w (afterCall (tick (afterCall w c s1)) (CallUpdate u) s2).
Proof.
  intros Hc. exists [c; CallUpdate u]. split.
  - split; [simpl; rewrite <- app_assoc; reflexivity | repeat split].
  - simpl. rewrite Hc. reflexivity.
Qed.

Create HintDb calls.

#[local] Hint Resolve oneWriteAtMost_none oneWriteAtMost_clock oneWriteAtMost_fresh
  oneWriteAtMost_call oneWriteAtMost_call_fresh oneWriteAtMost_read_clock
  oneWriteAtMost_read_write : calls.

(** X15: every operation of the use case, on every input, repository and
    world, issues no repository call, or one call, or one read followed by
    one write: never two writes, never a read after a write; it leaves the
    clock and random oracles as they were. *)
Theorem UseCase_one_write_at_most :
  forall (S : Type) (Validate : Unit -> option errors.error)
         (repo : unitUseCase.Repository S) (w : World S)
         (ids : list uuid.UUID) (id userID : uuid.UUID)
         (substring : option string) (name : string),
    oneWriteAtMost w (snd (unitUseCase.GetByIDs repo ids w)) /\
    oneWriteAtMost w (snd (unitUseCase.GetAll repo userID substring w)) /\
    oneWriteAtMost w (snd (unitUseCase.Create Validate repo userID name w)) /\
    oneWriteAtMost w (snd (unitUseCase.Update Validate repo id userID name w)) /\
    oneWriteAtMost w (snd (unitUseCase.Delete repo id w)).
Proof.
  intros S Validate repo w ids id userID substring name.
  split; [|split; [|split; [|split]]].
  - run. destruct (_ =? _)%nat; [simpl; auto with calls|]. cbv beta iota.
    destruct (unitUseCase.repo_GetByIDs repo ids (store w)) as [[units|err] s1];
      simpl; auto with calls.
  - run. destruct (presentAnd _ _); [simpl; auto with calls|]. cbv beta iota.
    destruct (unitUseCase.repo_GetAll repo userID substring (store w))
      as [[units|err] s1]; simpl; auto with calls.
  - run. rewrite New_eq.
    destruct (Validate _); [simpl; auto with calls|]. cbv beta iota.
    change (store (draw (tick w))) with (store w).
    destruct (unitUseCase.repo_Create repo _ (store w)) as [[err|] s1];
      simpl; auto with calls.
  - destruct (unitUseCase.repo_GetByIDs repo [id] (store w)) as [[units|err] s1] eqn:Hfetch.
    + destruct units as [|u [|u' rest]].
      * run. rewrite Hfetch. simpl. auto with calls.
      * rewrite (UseCase_Update_fetched _ _ _ _ _ _ _ _ _ Hfetch). cbv zeta.
        destruct (UserID u) as [owner|]; [|simpl; auto with calls].
        destruct (uuid.eqb owner userID); [|simpl; auto with calls].
        destruct (Validate _); simpl; auto with calls.
      * run. rewrite Hfetch. simpl. auto with calls.
    + run. rewrite Hfetch. simpl. auto with calls.
  - destruct (unitUseCase.repo_GetByIDs repo [id] (store w)) as [[units|err] s1] eqn:Hfetch.
    + destruct units as [|u [|u' rest]].
      * run. rewrite Hfetch. simpl. auto with calls.
      * rewrite (UseCase_Delete_fetched _ _ _ _ _ _ Hfetch). cbv zeta.
        simpl. auto with calls.
      * run. rewrite Hfetch. simpl. auto with calls.
    + run. rewrite Hfetch. simpl. auto with calls.
Qed.

(** ** The service *)

Lemma prefix_app (a s : string) :
  String.prefix a s = true <-> exists post, s = (a ++ post)%string.
Proof.
  revert s. induction a as [|c a IH]; intros s.
  - split; [intros _; exists s; reflexivity | destruct s; reflexivity].
  - destruct s as [|d s]; simpl.
    + split; [discriminate | intros [post H]; discriminate H].
    + destruct (Ascii.ascii_dec c d) as [->|Hcd].
      * rewrite IH. split; intros [post H]; exists post; congruence.
      * split; [discriminate|]. intros [post H]. congruence.
Qed.

Lemma Contains_eq (s substr : string) :
  unitService.Contains s substr
  = if String.prefix substr s then true
    else match s with
         | EmptyString => false
         | String _ s' => unitService.Contains s' substr
         end.
Proof. destruct s; reflexivity. Qed.

(** [Contains] answers true exactly on the strings that hold [substr]
    somewhere. *)
Lemma Contains_spec (s substr : string) :
  unitService.Contains s substr = true <->
  exists pre post, s = (pre ++ substr ++ post)%string.
Proof.
  induction s as [|c s IH]; rewrite Contains_eq.
  - destruct (String.prefix substr "") eqn:Hp.
    + split; [|reflexivity]. intros _. apply prefix_app in Hp.
      destruct Hp as [post Hp]. exists ""%string, post. exact Hp.
    + split; [discriminate|]. intros [pre [post H]].
      destruct pre; [|discriminate H]. simpl in H.
      assert (String.prefix substr "" = true) by (apply prefix_app; eauto).
      congruence.
  - destruct (String.prefix substr (String c s)) eqn:Hp.
    + split; [|reflexivity]. intros _. apply prefix_app in Hp.
      destruct Hp as [post Hp]. exists ""%string, post. exact Hp.
    + rewrite IH. split.
      * intros [pre [post H]]. exists (String c pre), post. simpl. congruence.
      * intros [pre [post H]]. destruct pre as [|d pre]; simpl in H.
        -- assert (String.prefix substr (String c s) = true)
             by (apply prefix_app; eauto).
           congruence.
        -- injection H as _ H. eauto.
Qed.

(** X16: whatever the substring, the empty one included, GetAllFiltered
    issues the repository's GetAll once and, when that succeeds, returns
    the repository's Units whose name holds the substring somewhere, in the
    repository's order; a repository error is returned as it is. *)
Theorem GetAllFiltered_keeps_containing :
  forall (S : Type) (svc : unitService.Repository S) (w : World S)
         (substring : string),
    snd (unitService.GetAllFiltered svc substring w)
      = afterCall w CallGetAllUnits (snd (unitService.repo_GetAll svc (store w))) /\
    (forall err, fst (unitService.repo_GetAll svc (store w)) = fail err ->
       fst (unitService.GetAllFiltered svc substring w) = fail err) /\
    (forall units, fst (unitService.repo_GetAll svc (store w)) = ok units ->
       fst (unitService.GetAllFiltered svc substring w)
         = ok (filter (fun u => unitService.Contains (Name u) substring) units) /\
       forall u,
         In u (filter (fun u => unitService.Contains (Name u) substring) units) <->
         In u units /\ exists pre post, Name u = (pre ++ substring ++ post)%string).
Proof.
  intros S svc w substring. run.
  destruct (unitService.repo_GetAll svc (store w)) as [[units|err] s1]; simpl.
  - split; [destruct (String.eqb substring ""); reflexivity|].
    split; [discriminate|].
    intros units' E. injection E as <-. split.
    + destruct (String.eqb_spec substring "") as [->|]; [|reflexivity].
      simpl. f_equal. symmetry. apply forallb_filter_id.
      apply forallb_forall. intros u _. apply Contains_spec.
      exists ""%string, (Name u). reflexivity.
    + intros u. rewrite filter_In, Contains_spec. tauto.
  - split; [reflexivity|]. split; [|discriminate].
    intros err' E. injection E as <-. reflexivity.
Qed.

(** X17: the service's Create hands the owner on as given, absent
    included, and wraps nothing: a violation is returned as Validate gave
    it with no repository call issued, a repository error as the repository
    gave it; a returned Unit is the fresh one (version 1, not deleted, the
    given owner), it passed Validate and its Create is the one call. *)
Theorem Service_Create_passes_owner :
  forall (S : Type) (Validate : Unit -> option errors.error)
         (svc : unitService.Repository S) (w : World S)
         (userID : option uuid.UUID) (name : string),
    (forall violation,
       Validate (fst (unit.New userID name w)) = Some violation ->
       unitService.Create Validate svc userID name w = (fail violation, draw (tick w))) /\
    (forall err,
       Validate (fst (unit.New userID name w)) = None ->
       fst (unitService.repo_Create svc (fst (unit.New userID name w)) (store w))
         = Some err ->
       fst (unitService.Create Validate svc userID name w) = fail err) /\
    (forall v,
       fst (unitService.Create Validate svc userID name w) = ok v ->
       v = fst (unit.New userID name w) /\
       UserID v = userID /\ Version v = 1 /\ DeletedAt v = None /\ Name v = name /\
       Validate v = None /\
       calls (snd (unitService.Create Validate svc userID name w))
         = calls w ++ [CallCreate v]).
Proof.
  intros S Validate svc w userID name. rewrite New_eq. cbn [fst].
  split; [|split].
  - intros violation HV. run. rewrite New_eq, HV. reflexivity.
  - intros err HV Hwrite. run. rewrite New_eq, HV. cbv beta iota.
    change (store (draw (tick w))) with (store w).
    destruct (unitService.repo_Create svc _ (store w)) as [e s1].
    simpl in Hwrite. subst e. reflexivity.
  - intros v. run. rewrite New_eq.
    destruct (Validate _) eqn:HV; [discriminate|]. cbv beta iota.
    change (store (draw (tick w))) with (store w).
    destruct (unitService.repo_Create svc _ (store w)) as [[err|] s1];
      simpl; [discriminate|].
    intros E. injection E as <-. repeat split. exact HV.
Qed.

Lemma Service_Create_passes_owner_witness :
  UserID (fst (unit.New None "alpha" (memWorld []))) = None /\
  calls (snd (unitService.Create unit.Validate memService None "alpha" (memWorld [])))
    = [CallCreate (fst (unit.New None "alpha" (memWorld [])))].
Proof.
  destruct (Service_Create_passes_owner (list Unit) unit.Validate memService
              (memWorld []) None "alpha") as [_ [_ Hok]].
  destruct (Hok (fst (unit.New None "alpha" (memWorld []))) eq_refl)
    as [_ [Ho [_ [_ [_ [_ Hc]]]]]].
  split; [exact Ho | exact Hc].
Defined.

(** X18: when the by-id fetch of the service's Update or Delete fails, the
    operation returns the repository's error as it is, and the fetch is
    the only repository call. *)
Theorem Service_fetch_error_is_returned :
  forall (S : Type) (Validate : Unit -> option errors.error)
         (svc : unitService.Repository S) (w : World S)
         (id userID : uuid.UUID) (name : string) (err : errors.error) (s1 : S),
    unitService.repo_GetByID svc id (store w) = (fail err, s1) ->
    unitService.Update Validate svc id userID name w
      = (fail err, afterCall w (CallGetByID id) s1) /\
    unitService.Delete svc id w = (fail err, afterCall w (CallGetByID id) s1) /\
    unitService.GetByID svc id w = (fail err, afterCall w (CallGetByID id) s1).
Proof.
  intros S Validate svc w id userID name err s1 Hfetch.
  unfold unitService.GetByID. run. rewrite Hfetch. repeat split; reflexivity.
Qed.

Lemma Service_fetch_error_is_returned_witness :
  unitService.Update unit.Validate memService 8 5 "gamma" (memWorld [beta2024])
    = (fail (errors.Foreign 0),
       afterCall (memWorld [beta2024]) (CallGetByID 8) [beta2024]).
Proof.
  apply (Service_fetch_error_is_returned (list Unit) unit.Validate memService
           (memWorld [beta2024]) 8 5 "gamma" (errors.Foreign 0) [beta2024]).
  reflexivity.
Defined.

(** X19: every operation of the service, on every input, repository and
    world, issues one repository call, or one read followed by one write,
    or (Create on a Unit that does not validate) none: never two writes,
    never a read after a write. *)
Theorem Service_one_write_at_most :
  forall (S : Type) (Validate : Unit -> option errors.error)
         (svc : unitService.Repository S) (w : World S)
         (id userID : uuid.UUID) (owner : option uuid.UUID)
         (substring name : string),
    oneWriteAtMost w (snd (unitService.GetByID svc id w)) /\
    oneWriteAtMost w (snd (unitService.GetAll svc w)) /\
    oneWriteAtMost w (snd (unitService.GetAllFiltered svc substring w)) /\
    oneWriteAtMost w (snd (unitService.Create Validate svc owner name w)) /\
    oneWriteAtMost w (snd (unitService.Update Validate svc id userID name w)) /\
    oneWriteAtMost w (snd (unitService.Delete svc id w)).
Proof.
  intros S Validate svc w id userID owner substring name.
  split; [|split; [|split; [|split; [|split]]]].
  - unfold unitService.GetByID, called.
    destruct (unitService.repo_GetByID svc id (store w)); simpl; auto with calls.
  - run. destruct (unitService.repo_GetAll svc (store w)); simpl; auto with calls.
  - run. destruct (unitService.repo_GetAll svc (store w)) as [[units|err] s1];
      [destruct (String.eqb substring "")|]; simpl; auto with calls.
  - run. rewrite New_eq.
    destruct (Validate _); [simpl; auto with calls|]. cbv beta iota.
    change (store (draw (tick w))) with (store w).
    destruct (unitService.repo_Create svc _ (store w)) as [[err|] s1];
      simpl; auto with calls.
  - destruct (unitService.repo_GetByID svc id (store w)) as [[u|err] s1] eqn:Hfetch.
    + rewrite (Service_Update_fetched _ _ _ _ _ _ _ _ _ Hfetch). cbv zeta.
      destruct (UserID u) as [o|]; [|simpl; auto with calls].
      destruct (uuid.eqb o userID); [|simpl; auto with calls].
      destruct (Validate _); simpl; auto with calls.
    + run. rewrite Hfetch. simpl. auto with calls.
  - destruct (unitService.repo_GetByID svc id (store w)) as [[u|err] s1] eqn:Hfetch.
    + rewrite (Service_Delete_fetched _ _ _ _ _ _ Hfetch). cbv zeta.
      simpl. auto with calls.
    + run. rewrite Hfetch. simpl. auto with calls.
Qed.

(** ** Create, then Update *)

(** X20: a Unit the service's Create returned for an absent owner can
    never be updated: whenever a later fetch of Update returns it, Update
    fails with UserIDMissing, whoever asks, and writes nothing. *)
Theorem Service_unowned_unit_is_never_updated :
  forall (S : Type) (Validate : Unit -> option errors.error)
         (svc : unitService.Repository S) (w w2 : World S)
         (id userID : uuid.UUID) (name name2 : string) (u : Unit) (s1 : S),
    fst (unitService.Create Validate svc None name w) = ok u ->
    unitService.repo_GetByID svc id (store w2) = (ok u, s1) ->
    unitService.Update Validate svc id userID name2 w2
      = (fail unitService.ErrUserIDMissing, afterCall w2 (CallGetByID id) s1).
Proof.
  intros S Validate svc w w2 id userID name name2 u s1 Hcreated Hfetch.
  assert (Hnone : UserID u = None).
  { revert Hcreated. run. rewrite New_eq.
    destruct (Validate _); [discriminate|]. cbv beta iota.
    destruct (unitService.repo_Create svc _ _) as [[err|] s']; simpl;
      [discriminate|].
    intros E. injection E as <-. reflexivity. }
  rewrite (Service_Update_fetched _ _ _ _ _ _ _ _ _ Hfetch). cbv zeta.
  rewrite Hnone. reflexivity.
Qed.

Lemma Service_unowned_unit_is_never_updated_witness :
  unitService.Update unit.Validate memService (nextUUID (memWorld [])) 5 "gamma"
    (memWorld [fst (unit.New None "alpha" (memWorld []))])
  = (fail unitService.ErrUserIDMissing,
     afterCall (memWorld [fst (unit.New None "alpha" (memWorld []))])
       (CallGetByID (nextUUID (memWorld [])))
       [fst (unit.New None "alpha" (memWorld []))]).
Proof.
  apply (Service_unowned_unit_is_never_updated (list Unit) unit.Validate memService
           (memWorld []) (memWorld [fst (unit.New None "alpha" (memWorld []))])
           (nextUUID (memWorld [])) 5 "alpha" "gamma"
           (fst (unit.New None "alpha" (memWorld [])))
           [fst (unit.New None "alpha" (memWorld []))]).
  - reflexivity.
  - reflexivity.
Defined.

(** What the Validate of either entity revision returns is never matched
    by [errors.Is] as one of the package errors. *)
Lemma Validate_error_is_no_sentinel (u : Unit) (violation : errors.error)
    (v : errors.var) :
  unit.Validate u = Some violation \/ unitEntity.Validate u = Some violation ->
  errors.Is violation v = false.
Proof.
  unfold unit.Validate, unitEntity.Validate, validator.Struct.
  intros [H|H].
  - destruct (flat_map _ _); [discriminate H|].
    injection H as <-. reflexivity.
  - destruct (flat_map _ _).
    + destruct (presentAnd (DeletedAt u) _); [injection H as <-; reflexivity|].
      destruct (presentAnd (UserID u) _); [injection H as <-; reflexivity|].
      discriminate H.
    + injection H as <-. reflexivity.
Qed.

(** X21: a Unit the use case's Create returned for a user always has that
    user as its owner. Whenever a later fetch of Update returns it, Update
    by any other user fails with UserIDMismatch and writes nothing; and
    whoever asks, an error of Update that [errors.Is] matches as
    UserIDMissing is never Update's own: it wraps a violation Validate
    returned or an error the repository's write returned that is matched
    so, and with the Validate of either entity revision only the
    latter. *)
Theorem UseCase_created_unit_is_owned :
  forall (S : Type) (Validate : Unit -> option errors.error)
         (repo : unitUseCase.Repository S) (w w2 : World S)
         (id owner other : uuid.UUID) (name name2 : string) (u : Unit) (s1 : S),
    fst (unitUseCase.Create Validate repo owner name w) = ok u ->
    unitUseCase.repo_GetByIDs repo [id] (store w2) = (ok [u], s1) ->
    UserID u = Some owner /\
    (other <> owner ->
     unitUseCase.Update Validate repo id other name2 w2
       = (fail unitUseCase.ErrUserIDMismatch, afterCall w2 (CallGetByIDs [id]) s1)) /\
    (forall e,
       fst (unitUseCase.Update Validate repo id other name2 w2) = fail e ->
       errors.Is e errors.uc_ErrUserIDMissing = true ->
       (exists violation,
          Validate (setName (touchedAt u (nextNow w2)) name2) = Some violation /\
          errors.Is violation errors.uc_ErrUserIDMissing = true) \/
       (exists err,
          Validate (setName (touchedAt u (nextNow w2)) name2) = None /\
          fst (unitUseCase.repo_Update repo (setName (touchedAt u (nextNow w2)) name2) s1)
            = Some err /\
          errors.Is err errors.uc_ErrUserIDMissing = true)) /\
    (forall e,
       fst (unitUseCase.Update unit.Validate repo id other name2 w2) = fail e \/
       fst (unitUseCase.Update unitEntity.Validate repo id other name2 w2) = fail e ->
       errors.Is e errors.uc_ErrUserIDMissing = true ->
       exists err,
         fst (unitUseCase.repo_Update repo (setName (touchedAt u (nextNow w2)) name2) s1)
           = Some err /\
         errors.Is err errors.uc_ErrUserIDMissing = true).
Proof.
  intros S Validate repo w w2 id owner other name name2 u s1 Hcreated Hfetch.
  assert (Howner : UserID u = Some owner).
  { revert Hcreated. run. rewrite New_eq.
    destruct (Validate _); [discriminate|]. cbv beta iota.
    destruct (unitUseCase.repo_Create repo _ _) as [[err|] s']; simpl;
      [discriminate|].
    intros E. injection E as <-. reflexivity. }
  assert (Hrun : forall V e,
    fst (unitUseCase.Update V repo id other name2 w2) = fail e ->
    errors.Is e errors.uc_ErrUserIDMissing = true ->
    (exists violation,
       V (setName (touchedAt u (nextNow w2)) name2) = Some violation /\
       errors.Is violation errors.uc_ErrUserIDMissing = true) \/
    (exists err,
       V (setName (touchedAt u (nextNow w2)) name2) = None /\
       fst (unitUseCase.repo_Update repo (setName (touchedAt u (nextNow w2)) name2) s1)
         = Some err /\
       errors.Is err errors.uc_ErrUserIDMissing = true)).
  { intros V e.
    rewrite (UseCase_Update_fetched _ V _ _ _ _ _ _ _ Hfetch). cbv zeta.
    rewrite Howner.
    change (nextNow (afterCall w2 (CallGetByIDs [id]) s1)) with (nextNow w2).
    destruct (uuid.eqb owner other).
    - destruct (V _) as [violation|] eqn:HV.
      + simpl. intros E HI. injection E as <-. simpl in HI.
        left. exists violation. split; [reflexivity | exact HI].
      + simpl.
        destruct (fst (unitUseCase.repo_Update repo _ s1)) as [err|] eqn:Hwrite;
          [|discriminate].
        intros E HI. injection E as <-. simpl in HI.
        right. exists err. repeat split; assumption.
    - simpl. intros E HI. injection E as <-. discriminate HI. }
  split; [exact Howner|]. split; [|split].
  - intros Hneq.
    rewrite (UseCase_Update_fetched _ _ _ _ _ _ _ _ _ Hfetch). cbv zeta.
    rewrite Howner, uuid_eqb_neq; [reflexivity|]. congruence.
  - apply Hrun.
  - intros e [He|He] HI.
    + destruct (Hrun unit.Validate e He HI)
        as [[violation [HV HIs]] | [err [_ [Hw HIs]]]].
      * rewrite (Validate_error_is_no_sentinel _ violation _ (or_introl HV)) in HIs.
        discriminate HIs.
      * exists err. split; assumption.
    + destruct (Hrun unitEntity.Validate e He HI)
        as [[violation [HV HIs]] | [err [_ [Hw HIs]]]].
      * rewrite (Validate_error_is_no_sentinel _ violation _ (or_intror HV)) in HIs.
        discriminate HIs.
      * exists err. split; assumption.
Qed.

Lemma UseCase_created_unit_is_owned_witness :
  unitUseCase.Update unit.Validate memRepo (nextUUID (memWorld [])) 6 "gamma"
    (memWorld [fst (unit.New (Some 5) "alpha" (memWorld []))])
  = (fail unitUseCase.ErrUserIDMismatch,
     afterCall (memWorld [fst (unit.New (Some 5) "alpha" (memWorld []))])
       (CallGetByIDs [nextUUID (memWorld [])])
       [fst (unit.New (Some 5) "alpha" (memWorld []))]).
Proof.
  apply (UseCase_created_unit_is_owned (list Unit) unit.Validate memRepo
           (memWorld []) (memWorld [fst (unit.New (Some 5) "alpha" (memWorld []))])
           (nextUUID (memWorld [])) 5 6 "alpha" "gamma"
           (fst (unit.New (Some 5) "alpha" (memWorld [])))
           [fst (unit.New (Some 5) "alpha" (memWorld []))]).
  - reflexivity.
  - reflexivity.
  - discriminate.
Defined.

(** ** Failing writes *)

(** X22: when the repository refuses the write of Update (by the owner, on
    a Unit that validates) or of Delete, the operation returns no Unit but
    an error that [errors.Is] matches exactly as it matches the
    repository's; the write was issued once and is not repeated. *)
Theorem Update_Delete_write_error :
  forall (S : Type) (Validate : Unit -> option errors.error)
         (repo : unitUseCase.Repository S) (w : World S)
         (id userID : uuid.UUID) (name : string) (u : Unit) (s1 : S),
    unitUseCase.repo_GetByIDs repo [id] (store w) = (ok [u], s1) ->
    (forall err,
       UserID u = Some userID ->
       Validate (setName (touchedAt u (nextNow w)) name) = None ->
       fst (unitUseCase.repo_Update repo (setName (touchedAt u (nextNow w)) name) s1)
         = Some err ->
       exists e,
         fst (unitUseCase.Update Validate repo id userID name w) = fail e /\
         (forall v, errors.Is e v = errors.Is err v) /\
         calls (snd (unitUseCase.Update Validate repo id userID name w))
           = calls w ++ [CallGetByIDs [id];
                         CallUpdate (setName (touchedAt u (nextNow w)) name)]) /\
    (forall err,
       fst (unitUseCase.repo_Update repo (deletedAt u (nextNow w)) s1) = Some err ->
       exists e,
         fst (unitUseCase.Delete repo id w) = fail e /\
         (forall v, errors.Is e v = errors.Is err v) /\
         calls (snd (unitUseCase.Delete repo id w))
           = calls w ++ [CallGetByIDs [id]; CallUpdate (deletedAt u (nextNow w))]).
Proof.
  intros S Validate repo w id userID name u s1 Hfetch. split.
  - intros err Howner HV Hwrite.
    rewrite (UseCase_Update_fetched _ _ _ _ _ _ _ _ _ Hfetch). cbv zeta.
    rewrite Howner, uuid_eqb_refl.
    change (nextNow (afterCall w (CallGetByIDs [id]) s1)) with (nextNow w).
    rewrite HV, Hwrite. eexists. split; [reflexivity|]. split; [reflexivity|].
    simpl. rewrite <- app_assoc. reflexivity.
  - intros err Hwrite.
    rewrite (UseCase_Delete_fetched _ _ _ _ _ _ Hfetch). cbv zeta.
    change (nextNow (afterCall w (CallGetByIDs [id]) s1)) with (nextNow w).
    rewrite Hwrite. eexists. split; [reflexivity|]. split; [reflexivity|].
    simpl. rewrite <- app_assoc. reflexivity.
Qed.

Lemma Update_Delete_write_error_witness :
  exists e,
    fst (unitUseCase.Delete readOnlyRepo 7 (memWorld [beta2024])) = fail e /\
    errors.Is e errors.uc_ErrBadParams = false.
Proof.
  destruct (Update_Delete_write_error (list Unit) unit.Validate readOnlyRepo
              (memWorld [beta2024]) 7 5 "gamma" beta2024 [beta2024] eq_refl)
    as [_ Hdelete].
  destruct (Hdelete (errors.Foreign 2) eq_refl) as [e [He [HI _]]].
  exists e. split; [exact He | apply HI].
Defined.

Lemma GetAllFiltered_keeps_containing_witness :
  fst (unitService.GetAllFiltered memService "et" (memWorld [nilOwned; beta2024]))
    = ok [beta2024] /\
  fst (unitService.GetAllFiltered memService "" (memWorld [nilOwned; beta2024]))
    = ok [nilOwned; beta2024].
Proof.
  split.
  - destruct (GetAllFiltered_keeps_containing (list Unit) memService
                (memWorld [nilOwned; beta2024]) "et") as [_ [_ Hok]].
    destruct (Hok [nilOwned; beta2024] eq_refl) as [E _]. rewrite E. reflexivity.
  - destruct (GetAllFiltered_keeps_containing (list Unit) memService
                (memWorld [nilOwned; beta2024]) "") as [_ [_ Hok]].
    destruct (Hok [nilOwned; beta2024] eq_refl) as [E _]. rewrite E. reflexivity.
Defined.
